(** * GRID3 map tiles viewer: endpoint choice, archive registry, style
      composition, version check and view-state record

    A shallow embedding of the decision logic of
    - [2-viewer/src/js/config.js] (class [TileConfig]) and
    - [app/src/MapView.tsx] ([getMaplibreStyle], [archiveInfo], the
      version-compatibility effect and the hash-record effect),
    followed by the properties established about them.

    JavaScript values are modelled as the code uses them: [undefined] and
    [null] as [None], thrown exceptions as the [Throw] branch of a
    completion, objects used as dictionaries as [gmap string _]. *)

From Stdlib Require Import ZArith Ascii String List Bool Lia.
From stdpp Require Import base option gmap strings list pretty.

Open Scope string_scope.

(** ** JavaScript preliminaries *)

(** The exceptions this code can meet.  [TypeError] is what a property
    access on [undefined] raises and what [fetch] rejects with on a network
    or CORS failure; [AbortError] is the rejection of an aborted [fetch];
    [Error msg] is [new Error(msg)]. *)
Inductive js_error : Type :=
| TypeError
| AbortError
| Error (message : string).

(** How the evaluation of a function body (or of a promise callback) ends. *)
Inductive completion (A : Type) : Type :=
| Normal (v : A)
| Throw (e : js_error).
Arguments Normal {A} v.
Arguments Throw {A} e.

Definition bind {A B} (c : completion A) (k : A -> completion B) : completion B :=
  match c with
  | Normal v => k v
  | Throw e => Throw e
  end.

Notation "x <- c ;;; k" := (bind c (fun x => k))
  (at level 100, c at next level, right associativity).

(** Truthiness of a string (the empty string is falsy) and of an optional string
    ([undefined] is falsy as well). *)
Definition truthy (s : string) : bool :=
  match s with
  | EmptyString => false
  | String _ _ => true
  end.

Definition truthy_opt (o : option string) : bool :=
  match o with
  | Some s => truthy s
  | None => false
  end.

(** [s.split(sep)] for a one-character separator. *)
Fixpoint js_split (sep : ascii) (s : string) : list string :=
  match s with
  | EmptyString => [EmptyString]
  | String c rest =>
      if Ascii.eqb c sep then EmptyString :: js_split sep rest
      else match js_split sep rest with
           | piece :: pieces => String c piece :: pieces
           | [] => [String c EmptyString]
           end
  end.

(** [s.startsWith(p)], [s.includes(p)] and [s.endsWith(p)]. *)
Definition startsWith (s p : string) : bool := String.prefix p s.

Fixpoint includes (s p : string) : bool :=
  startsWith s p ||
  match s with
  | EmptyString => false
  | String _ rest => includes rest p
  end.

Fixpoint endsWith (s p : string) : bool :=
  String.eqb s p ||
  match s with
  | EmptyString => false
  | String _ rest => endsWith rest p
  end.

(** *** Numbers

    The code converts version strings with unary [+], uses the result as a
    property key, compares it inside [indexOf] and prints it in a template
    literal.  These four primitives of the language are kept as an
    interface, so that what is proved holds for every string the conversion
    accepts, whatever its notation. *)
Class JsNumber (num : Type) : Type := {
  ToNumber : string -> num;          (* [+s] *)
  NumberToString : num -> string;    (* [`${n}`], and [obj[n]]'s key *)
  strict_equal : num -> num -> bool; (* [===] *)
  num_literal : Z -> num             (* an integer literal of the source *)
}.

(** [arr.indexOf(x)]: the first index holding a value [===] to [x], else -1. *)
Fixpoint indexOf_from `{JsNumber num} (i : Z) (arr : list num) (x : num) : Z :=
  match arr with
  | [] => (-1)%Z
  | y :: rest => if strict_equal y x then i else indexOf_from (i + 1)%Z rest x
  end.

Definition indexOf `{JsNumber num} (arr : list num) (x : num) : Z :=
  indexOf_from 0%Z arr x.

(** A concrete reading of the interface, used to run the definitions:
    numbers are [NaN] or an integer.  It agrees with JavaScript on the empty
    string and on strings of ASCII decimal digits whose value is below 2^53;
    the other notations JavaScript accepts (sign, exponent, radix prefix,
    surrounding blanks) are outside it and read as [NaN]. *)
Inductive decnum : Type :=
| NaN
| Int (z : Z).

Definition digit_value (c : ascii) : option Z :=
  let n := Z.of_nat (nat_of_ascii c) in
  if ((48 <=? n) && (n <=? 57))%Z then Some (n - 48)%Z else None.

Fixpoint parse_digits (acc : Z) (s : string) : option Z :=
  match s with
  | EmptyString => Some acc
  | String c rest =>
      match digit_value c with
      | Some d => parse_digits (10 * acc + d)%Z rest
      | None => None
      end
  end.

Definition dec_ToNumber (s : string) : decnum :=
  match parse_digits 0%Z s with
  | Some z => Int z
  | None => NaN
  end.

Definition dec_NumberToString (n : decnum) : string :=
  match n with
  | NaN => "NaN"
  | Int z => pretty z
  end.

Definition dec_strict_equal (a b : decnum) : bool :=
  match a, b with
  | Int x, Int y => Z.eqb x y
  | _, _ => false
  end.

#[export] Instance decnum_JsNumber : JsNumber decnum := {|
  ToNumber := dec_ToNumber;
  NumberToString := dec_NumberToString;
  strict_equal := dec_strict_equal;
  num_literal := Int
|}.

(** ** Version compatibility check  ([MapView.tsx], the effect at 400-418) *)

Module VersionCheck.
Section WithNumbers.
Context `{JsNumber num}.

(** [VERSION_COMPATIBILITY] is imported from [./utils]; it is an object
    from tileset major versions to arrays of style major versions, taken
    here as a parameter. *)
Variable VERSION_COMPATIBILITY : gmap string (list num).

Definition STYLE_MAJOR_VERSION : num := num_literal 5.

(** [v.split(".")[0]] *)
Definition major_segment (v : string) : string :=
  default EmptyString (js_split "." v !! 0%nat).

(** What [archiveInfo] resolved to, as far as this effect looks at it:
    [i] may be [undefined]; its [metadata] may fail [instanceof Object];
    an object may or may not have a ["version"] property, which the code
    casts to a string. *)
Inductive metadata : Type :=
| NotAnObject
| MetadataObject (version : option string).

Definition styleMajorVersion (npmVersion : option string) : num :=
  match npmVersion with
  | Some v => if truthy v then ToNumber (major_segment v) else STYLE_MAJOR_VERSION
  | None => STYLE_MAJOR_VERSION
  end.

Definition tilesetMajorVersion (version : string) : num :=
  ToNumber (major_segment version).

Definition mismatch_message (style tileset : num) : string :=
  "style v" ++ NumberToString style ++
  " may not be compatible with tileset v" ++ NumberToString tileset ++ ". ".

(** The callback passed to [archiveInfo().then]: from the current value of
    the [mismatch] signal to its next value, or a thrown exception (which
    rejects the promise and leaves the signal as it was). *)
Definition check_callback (npmVersion : option string)
    (i : option metadata) (mismatch : string) : completion string :=
  let style := styleMajorVersion npmVersion in
  match i with
  | Some (MetadataObject (Some version)) =>
      let tilesetVersion := tilesetMajorVersion version in
      match VERSION_COMPATIBILITY !! NumberToString tilesetVersion with
      | None => Throw TypeError
      | Some compatible =>
          if (indexOf compatible style <? 0)%Z
          then Normal (mismatch_message style tilesetVersion)
          else Normal EmptyString
      end
  | _ => Normal mismatch
  end.

End WithNumbers.
End VersionCheck.

(** ** Endpoint configuration  ([2-viewer/src/js/config.js]) *)

Module TileConfig.

Inductive endpoint : Type := caddy | github.

(** What the constructor reads from its surroundings: the two build-time
    variables of [import.meta.env] and [window.location]. *)
Record environment : Type := {
  VITE_CADDY_HOST : option string;
  VITE_CADDY_PORT : option string;
  hostname : string;
  pathname : string
}.

Record caddy_endpoints : Type := {
  caddy_pmtiles : string;
  caddy_mvt : string;
  caddy_health : string
}.

(** The fields of a [TileConfig] instance; [endpoints.github.pmtiles] and
    [currentEndpoint] start as [null]. *)
Record t : Type := {
  endpoints_caddy : caddy_endpoints;
  endpoints_github_pmtiles : option string;
  currentEndpoint : option endpoint;
  isLocalhost : bool;
  isGitHubPages : bool;
  repoName : string;
  basePath : string
}.

(** [x || d] on a possibly undefined string. *)
Definition or_default (x : option string) (d : string) : string :=
  match x with
  | Some s => if truthy s then s else d
  | None => d
  end.

(** [`${x}`] for a string or [null]. *)
Definition template_nullable (x : option string) : string :=
  match x with
  | Some s => s
  | None => "null"
  end.

Definition detectEnvironment (env : environment) (c : t) : t :=
  let isLocalhost' :=
    String.eqb (hostname env) "localhost" || String.eqb (hostname env) "127.0.0.1" in
  let isGitHubPages' := includes (hostname env) "github.io" in
  if isGitHubPages' then
    let repoName' := or_default (js_split "/" (pathname env) !! 1%nat) EmptyString in
    let basePath' := if truthy repoName' then "/" ++ repoName' else EmptyString in
    {| endpoints_caddy := endpoints_caddy c;
       endpoints_github_pmtiles := Some (basePath' ++ "/tiles");
       currentEndpoint := currentEndpoint c;
       isLocalhost := isLocalhost';
       isGitHubPages := isGitHubPages';
       repoName := repoName';
       basePath := basePath' |}
  else if isLocalhost' then
    {| endpoints_caddy := endpoints_caddy c;
       endpoints_github_pmtiles := Some "./tiles";
       currentEndpoint := currentEndpoint c;
       isLocalhost := isLocalhost';
       isGitHubPages := isGitHubPages';
       repoName := repoName c;
       basePath := EmptyString |}
  else
    {| endpoints_caddy := endpoints_caddy c;
       endpoints_github_pmtiles := endpoints_github_pmtiles c;
       currentEndpoint := currentEndpoint c;
       isLocalhost := isLocalhost';
       isGitHubPages := isGitHubPages';
       repoName := repoName c;
       basePath := basePath c |}.

Definition constructor (env : environment) : t :=
  let caddyHost := or_default (VITE_CADDY_HOST env) "127.0.0.1" in
  let caddyPort := or_default (VITE_CADDY_PORT env) "3002" in
  let base := "http://" ++ caddyHost ++ ":" ++ caddyPort in
  detectEnvironment env
    {| endpoints_caddy :=
         {| caddy_pmtiles := base ++ "/static";
            caddy_mvt := base ++ "/mvt";
            caddy_health := base ++ "/health" |};
       endpoints_github_pmtiles := None;
       currentEndpoint := None;
       isLocalhost := false;
       isGitHubPages := false;
       repoName := EmptyString;
       basePath := EmptyString |}.

(** *** The liveness probe

    [checkCaddyAvailability] starts a 2000 ms timer whose callback aborts
    the request, then awaits [fetch].  Which of the two happens first is
    decided by the network: either the request settles (with a response,
    or with a rejection on a network or CORS failure), or the timer fires
    and the abort makes [fetch] reject with an [AbortError]. *)
Record response : Type := { status : Z; ok : bool }.

Inductive settlement : Type :=
| Responds (r : response)
| Rejects (e : js_error).

Inductive race : Type :=
| FetchFirst (s : settlement)
| TimerFirst.

Definition timeout_ms : Z := 2000.

(** The network: how a GET of a given URL under that timer turns out. *)
Definition network : Type := string -> race.

(** [await fetch(url, {signal})] with the abort timer armed. *)
Definition await_fetch (net : network) (url : string) : completion response :=
  match net url with
  | FetchFirst (Responds r) => Normal r
  | FetchFirst (Rejects e) => Throw e
  | TimerFirst => Throw AbortError
  end.

(** [try { body } catch (error) { handler }] *)
Definition try_catch {A} (body : completion A) (handler : js_error -> completion A)
  : completion A :=
  match body with
  | Normal v => Normal v
  | Throw e => handler e
  end.

(** The value the returned promise settles to, and the URLs requested. *)
Definition checkCaddyAvailability (net : network) (c : t)
  : completion bool * list string :=
  let url := caddy_health (endpoints_caddy c) in
  (try_catch
     (r <- await_fetch net url ;;; Normal (ok r))
     (fun _ => Normal false),
   [url]).

Definition set_currentEndpoint (e : endpoint) (c : t) : t :=
  {| endpoints_caddy := endpoints_caddy c;
     endpoints_github_pmtiles := endpoints_github_pmtiles c;
     currentEndpoint := Some e;
     isLocalhost := isLocalhost c;
     isGitHubPages := isGitHubPages c;
     repoName := repoName c;
     basePath := basePath c |}.

(** The outcome of an asynchronous method: its completion, the instance
    afterwards and the requests it made. *)
Record run (A : Type) : Type := {
  result : completion A;
  after : t;
  requested : list string
}.
Arguments result {A} r.
Arguments after {A} r.
Arguments requested {A} r.

(** [selectBestEndpoint]'s two probing branches have the same shape. *)
Definition probe_then_choose (net : network) (c : t) : run endpoint :=
  let '(avail, log) := checkCaddyAvailability net c in
  match avail with
  | Throw e => {| result := Throw e; after := c; requested := log |}
  | Normal caddyAvailable =>
      if caddyAvailable
      then {| result := Normal caddy; after := set_currentEndpoint caddy c;
              requested := log |}
      else {| result := Normal github; after := set_currentEndpoint github c;
              requested := log |}
  end.

Definition selectBestEndpoint (net : network) (c : t) : run endpoint :=
  if isLocalhost c then probe_then_choose net c
  else if isGitHubPages c then probe_then_choose net c
  else {| result := Normal github; after := set_currentEndpoint github c;
          requested := [] |}.

Definition endpoint_base (e : endpoint) (c : t) : option string :=
  match e with
  | caddy => Some (caddy_pmtiles (endpoints_caddy c))
  | github => endpoints_github_pmtiles c
  end.

Definition not_selected : js_error :=
  Error "Endpoint not selected. Call selectBestEndpoint() first.".

Definition getPMTilesUrl (c : t) (tileName : string) : completion string :=
  match currentEndpoint c with
  | None => Throw not_selected
  | Some e =>
      Normal ("pmtiles://" ++ template_nullable (endpoint_base e c) ++ "/" ++ tileName)
  end.

Definition getPMTilesBaseUrl (c : t) (tileName : string) : completion string :=
  match currentEndpoint c with
  | None => Throw not_selected
  | Some e => Normal (template_nullable (endpoint_base e c) ++ "/" ++ tileName)
  end.

Definition getMVTUrl (c : t) (tableName : string) : option string :=
  match currentEndpoint c with
  | Some caddy => Some (caddy_mvt (endpoints_caddy c) ++ "/" ++ tableName ++ "/{z}/{x}/{y}")
  | _ => None
  end.

Definition isMVTAvailable (c : t) : bool :=
  match currentEndpoint c with
  | Some caddy => true
  | _ => false
  end.

(** The [environment] entry of [getInfo()]. *)
Definition getInfo_environment (c : t) : string :=
  if isLocalhost c then "localhost"
  else if isGitHubPages c then "github-pages" else "other".

End TileConfig.

(** ** Archives and the protocol's registry  ([MapView.tsx], [archiveInfo]) *)

(** A [PMTiles] instance of the [pmtiles] package, as far as this code sees
    it: an object identity and the key of its source
    ([archive.source.getKey()]): the URL for [new PMTiles(url)], the file
    name for a dropped [FileSource]. *)
Record PMTiles : Type := {
  instance : nat;
  source_key : string
}.

#[export] Instance PMTiles_eq_dec : EqDecision PMTiles.
Proof. solve_decision. Defined.

Module Registry.

(** [Protocol.tiles] is a [Map<string, PMTiles>]; [protocolRef] is
    [undefined] before mount and after unmount.  [constructed] counts the
    [PMTiles] objects built so far and gives the next one its identity. *)
Record state : Type := {
  protocolRef : option (gmap string PMTiles);
  constructed : nat
}.

Record props : Type := {
  droppedArchive : option PMTiles;
  tiles : option string
}.

(** [p.add(archive)]: [this.tiles.set(archive.source.getKey(), archive)]. *)
Definition add (archive : PMTiles) (p : gmap string PMTiles) : gmap string PMTiles :=
  <[source_key archive := archive]> p.

(** Where [archiveInfo] takes its metadata and bounds from. *)
Inductive resolution : Type :=
| TileJson (url : string)     (* fetched as a TileJSON document *)
| Archive (archive : PMTiles) (* read from this archive's metadata and header *)
| Unresolved.                 (* the function returns [undefined] *)

(** The get-or-create step: [p.tiles.get(key)], and when that is
    [undefined], [new PMTiles(key)] followed by [p.add]. *)
Definition get_or_create (key : string) (p : gmap string PMTiles) (n : nat)
  : PMTiles * gmap string PMTiles * nat :=
  match p !! key with
  | Some archive => (archive, p, n)
  | None =>
      let archive := {| instance := n; source_key := key |} in
      (archive, add archive p, S n)
  end.

(** [archiveInfo] up to the point where it starts reading the archive. *)
Definition resolve (pr : props) (st : state) : resolution * state :=
  match droppedArchive pr, tiles pr with
  | None, Some u =>
      if endsWith u ".json" then (TileJson u, st)
      else
        match protocolRef st with
        | None => (Unresolved, st)
        | Some p =>
            if truthy u then
              let '(archive, p', n') := get_or_create u p (constructed st) in
              (Archive archive, {| protocolRef := Some p'; constructed := n' |})
            else (Unresolved, st)
        end
  | None, None => (Unresolved, st)
  | Some archive, _ =>
      match protocolRef st with
      | None => (Unresolved, st)
      | Some p =>
          (Archive archive,
           {| protocolRef := Some (add archive p);
              constructed := constructed st |})
      end
  end.

(** Every handle of the registry sits under the key of its own source. *)
Definition keyed_by_source (p : gmap string PMTiles) : Prop :=
  forall k h, p !! k = Some h -> source_key h = k.

(** The registry of a state; none while the protocol is not mounted. *)
Definition registered (st : state) (k : string) : option PMTiles :=
  match protocolRef st with
  | Some p => p !! k
  | None => None
  end.

End Registry.

(** ** Style composition  ([MapView.tsx], [getMaplibreStyle]) *)

Module Style.
Section Composer.
(** Layer specifications and flavors are opaque to the composer. *)
Variables (Layer Flavor : Type).

(** Imported by [MapView.tsx] and not part of this development:
    [isValidPMTiles] of [./utils] and [layers] of the styles package.
    Either may throw. *)
Variable isValidPMTiles : string -> completion bool.
Variable layers : string -> Flavor -> string -> completion (list Layer).

(** [location.protocol] and [location.host] *)
Variables (location_protocol location_host : string).

(** The double-quote character of the attribution's HTML. *)
Definition dq : string := String (ascii_of_nat 34) EmptyString.

Definition ATTRIBUTION : string :=
  "<a href=" ++ dq ++ "https://github.com/protomaps/basemaps" ++ dq
    ++ ">Protomaps</a> © <a href=" ++ dq ++ "https://openstreetmap.org" ++ dq
    ++ ">OpenStreetMap</a>".

Record VectorSource : Type := {
  type : string;
  attribution : string;
  url : string
}.

Record StyleSpecification : Type := {
  version : Z;
  sources : gmap string VectorSource;
  style_layers : list Layer;
  sprite : option string;
  glyphs : option string
}.

(** [`${x}`] for a string or [undefined]. *)
Definition template_optional (x : option string) : string :=
  match x with
  | Some s => s
  | None => "undefined"
  end.

Definition empty_style : StyleSpecification :=
  {| version := 8; sources := ∅; style_layers := []; sprite := None; glyphs := None |}.

Definition tilesWithProtocol (tiles : string) (droppedArchive : option PMTiles)
  : completion string :=
  match droppedArchive with
  | Some archive => Normal ("pmtiles://" ++ source_key archive)
  | None =>
      valid <- isValidPMTiles tiles ;;;
      Normal (if valid then "pmtiles://" ++ tiles else tiles)
  end.

Definition sprite_url (localSprites : bool) (flavorName : option string) : string :=
  if localSprites
  then location_protocol ++ "//" ++ location_host ++ "/" ++ template_optional flavorName
  else "https://protomaps.github.io/basemaps-assets/sprites/v4/"
         ++ template_optional flavorName.

Definition GLYPHS : string :=
  "https://protomaps.github.io/basemaps-assets/fonts/{fontstack}/{range}.pbf".

(** The layers appended to the empty list: [npmLayers] when it is a
    non-empty array, else the layers generated from the flavor. *)
Definition layer_stack (lang : string) (fl : Flavor) (npmLayers : option (list Layer))
  : completion (list Layer) :=
  match npmLayers with
  | Some (l :: ls) => Normal (app [] (l :: ls))
  | _ => ls <- layers "protomaps" fl lang ;;; Normal (app [] ls)
  end.

Definition getMaplibreStyle (lang : string) (localSprites : bool)
    (flavorName : option string) (flavor : option Flavor)
    (tiles : option string) (npmLayers : option (list Layer))
    (droppedArchive : option PMTiles) : completion StyleSpecification :=
  match tiles, flavor with
  | None, _ => Normal empty_style
  | Some _, None => Normal empty_style
  | Some t, Some fl =>
      if truthy t then
        withProtocol <- tilesWithProtocol t droppedArchive ;;;
        generated <- layer_stack lang fl npmLayers ;;;
        Normal
          {| version := 8;
             sources :=
               {[ "protomaps" :=
                    {| type := "vector"; attribution := ATTRIBUTION;
                       url := withProtocol |} ]};
             style_layers := generated;
             sprite := Some (sprite_url localSprites flavorName);
             glyphs := Some GLYPHS |}
      else Normal empty_style
  end.

End Composer.
End Style.

(** ** The view state and its hash record  ([MapView.tsx], [MapView]) *)

Module ViewState.

Definition DEFAULT_TILES : string :=
  "https://pub-927f42809d2e4b89b96d1e7efb091d1f.r2.dev/global.pmtiles".

(** The signals of [MapView] that the hash record is built from. *)
Record signals : Type := {
  flavorName : string;
  lang : string;
  tiles : string;
  localSprites : bool;
  showBoxes : bool;
  publishedStyleVersion : option string;
  droppedArchive : option PMTiles
}.

(** A fragment, read as the key/value pairs [parseHash] finds in it. *)
Abbreviation fragment := (gmap string string).

(** The initial signals, from the parsed fragment: [hash.k || default]. *)
Definition initial (hash : fragment) : signals :=
  {| flavorName := TileConfig.or_default (hash !! "flavorName") "light";
     lang := TileConfig.or_default (hash !! "lang") "en";
     tiles := TileConfig.or_default (hash !! "tiles") DEFAULT_TILES;
     localSprites := bool_decide (hash !! "local_sprites" = Some "true");
     showBoxes := bool_decide (hash !! "show_boxes" = Some "true");
     publishedStyleVersion := hash !! "npm_version";
     droppedArchive := None |}.

(** The object literal handed to [createHash]: its properties in source
    order, [undefined] as [None]. *)
Definition hash_record (s : signals) : list (string * option string) :=
  [ ("flavorName", Some (flavorName s));
    ("lang", Some (lang s));
    ("tiles",
      match droppedArchive s with
      | Some _ => None
      | None => if String.eqb (tiles s) DEFAULT_TILES then None else Some (tiles s)
      end);
    ("local_sprites", if localSprites s then Some "true" else None);
    ("show_boxes", if showBoxes s then Some "true" else None);
    ("npm_version",
      if truthy_opt (publishedStyleVersion s) then publishedStyleVersion s else None) ].

(** [record[k]] *)
Definition field (k : string) (record : list (string * option string)) : option string :=
  match List.find (fun kv => String.eqb (fst kv) k) record with
  | Some (_, v) => v
  | None => None
  end.

(** The defaults the view declares for its string-valued fields (the
    initialisers of [MapView], [hash.k || default]).  The two flags default
    to off and the published style version to none, which the record
    expresses by leaving the field undefined. *)
Definition DECLARED_DEFAULTS : gmap string string :=
  {[ "flavorName" := "light"; "lang" := "en"; "tiles" := DEFAULT_TILES ]}.

(** What the encoder writes for one field of the record: nothing for an
    undefined field, nothing for a value equal to the field's declared
    default, else the value. *)
Definition written_value (k : string) (v : option string) : option string :=
  match v with
  | Some x => if bool_decide (DECLARED_DEFAULTS !! k = Some x) then None else Some x
  | None => None
  end.

(** Modelled from the spec: [createHash] of [./utils], which is not among
    the sources.  The spec's encoder merges the record's fields into the
    key/value pairs already in the fragment, so that unrelated keys are
    preserved; a field with value equal to the declared default is omitted
    entirely; and an absent (undefined) field means that no key is
    written.  A key that is omitted is not in the resulting fragment, also
    when the existing fragment had it. *)
Definition createHash (existing : fragment) (record : list (string * option string))
  : fragment :=
  fold_left
    (fun acc kv =>
       match written_value (fst kv) (snd kv) with
       | Some v => <[fst kv := v]> acc
       | None => delete (fst kv) acc
       end)
    record existing.

(** [location.hash = createHash(location.hash, record)] *)
Definition encode (existing : fragment) (s : signals) : fragment :=
  createHash existing (hash_record s).

(** The five flavors of [handleKeyPress], keys 1 to 5. *)
Definition KEY_FLAVORS : list string := ["light"; "dark"; "white"; "grayscale"; "black"].

(** [handleKeyPress], by the event's [charCode]: [None] when [setFlavorName]
    is not called, else the argument it is called with (an array read out
    of range would give [undefined]). *)
Definition handleKeyPress (charCode : Z) : option (option string) :=
  if ((49 <=? charCode) && (charCode <=? 53))%Z
  then Some (KEY_FLAVORS !! Z.to_nat (charCode - 49))
  else None.

(** The signals with an empty published style version read as none. *)
Definition without_empty_version (s : signals) : signals :=
  {| flavorName := flavorName s; lang := lang s; tiles := tiles s;
     localSprites := localSprites s; showBoxes := showBoxes s;
     publishedStyleVersion :=
       if truthy_opt (publishedStyleVersion s) then publishedStyleVersion s else None;
     droppedArchive := droppedArchive s |}.

(** The keys of the hash record. *)
Definition RECORD_KEYS : list string :=
  ["flavorName"; "lang"; "tiles"; "local_sprites"; "show_boxes"; "npm_version"].

End ViewState.

(** ** Feature identifiers  ([MapView.tsx], [featureIdToOsmId] and around) *)

Module FeatureId.

(** Both functions start with [BigInt(raw)]; they are given here on that
    integer.  [&] and [>>] on BigInt are two's-complement operations on
    integers of any size, as [Z.land] and [Z.shiftr] are. *)
Definition featureIdToOsmId (raw : Z) : Z :=
  Z.land raw (Z.shiftl 1 44 - 1).

Definition featureIdToOsmType (i : Z) : string :=
  let t := Z.land (Z.shiftr i 44) 3 in
  if (t =? 1)%Z then "node"
  else if (t =? 2)%Z then "way"
  else if (t =? 3)%Z then "relation"
  else "not_osm".

(** What [displayId] renders: a link to openstreetmap.org, or the feature
    id as it is. *)
Inductive displayed : Type :=
| OsmLink (href text : string)
| Plain (featureId : option Z).

(** [displayId] for a feature without id or with an integer number as id
    (0 is falsy). *)
Definition displayId (featureId : option Z) : displayed :=
  match featureId with
  | Some raw =>
      if (raw =? 0)%Z then Plain featureId
      else
        let osmType := featureIdToOsmType raw in
        if negb (String.eqb osmType "not_osm") then
          let osmId := featureIdToOsmId raw in
          OsmLink ("https://openstreetmap.org/" ++ osmType ++ "/" ++ pretty osmId)
                  (osmType ++ " " ++ pretty osmId)
        else Plain featureId
  | None => Plain featureId
  end.

End FeatureId.

(** ** Development server configuration  ([2-viewer/vite.config.js]) *)

Module ViteConfig.

(** The two variables read from the repository's environment files. *)
Record root_env : Type := {
  HOST_IP : option string;
  CADDY_HTTP_PORT : option string
}.

(** [envWithPrefix], which [define] substitutes for
    [import.meta.env.VITE_CADDY_HOST] and [..._PORT] in the application. *)
Definition envWithPrefix_host (env : root_env) : string :=
  TileConfig.or_default (HOST_IP env) "127.0.0.1".

Definition envWithPrefix_port (env : root_env) : string :=
  TileConfig.or_default (CADDY_HTTP_PORT env) "3002".

(** The surroundings of a [TileConfig] built by this configuration and
    loaded at a given location. *)
Definition app_environment (env : root_env) (hostname pathname : string)
  : TileConfig.environment :=
  {| TileConfig.VITE_CADDY_HOST := Some (envWithPrefix_host env);
     TileConfig.VITE_CADDY_PORT := Some (envWithPrefix_port env);
     TileConfig.hostname := hostname;
     TileConfig.pathname := pathname |}.

(** [s.slice(n)] *)
Fixpoint slice_from (n : nat) (s : string) : string :=
  match n, s with
  | O, _ => s
  | S n', String _ rest => slice_from n' rest
  | S _, EmptyString => EmptyString
  end.

(** [path.replace(/^prefix/, replacement)] for a literal prefix and a
    replacement without [$]. *)
Definition replace_prefix (prefix replacement path : string) : string :=
  if startsWith path prefix
  then replacement ++ slice_from (String.length prefix) path
  else path.

Definition PROXY_TARGET : string := "http://127.0.0.1:3002".

(** The [rewrite] functions of the two proxy entries. *)
Definition rewrite_tiles (path : string) : string :=
  replace_prefix "/api/tiles" "/static" path.

Definition rewrite_mvt (path : string) : string :=
  replace_prefix "/api/mvt" "/mvt" path.

End ViteConfig.

(** ** Sprite sheet layout  ([2-viewer/scripts/generate-sprites.js]) *)

Module Sprites.

Record config : Type := { scale : Z; suffix : string }.

Definition CONFIGS : list config :=
  [ {| scale := 1; suffix := EmptyString |}; {| scale := 2; suffix := "@2x" |} ].

Definition spriteWidth : Z := 32.
Definition spriteHeight : Z := 32.

(** One entry of the JSON metadata. *)
Record entry : Type := {
  width : Z;
  height : Z;
  x : Z;
  y : Z;
  pixelRatio : Z
}.

(** The state of the inner loop: the [drawImage] calls made so far (sprite
    name and horizontal offset), the metadata object and [xOffset]. *)
Record placing : Type := {
  draws : list (string * Z);
  metadata : gmap string entry;
  xOffset : Z
}.

(** [metadata[name] = e] on an object created by an object literal: an own
    key is stored for every name but [__proto__], for which the assignment
    sets the object's prototype and stores no key. *)
Definition assign (name : string) (e : entry) (metadata : gmap string entry)
  : gmap string entry :=
  if String.eqb name "__proto__" then metadata else <[name := e]> metadata.

(** The body of the loop over the SVG files.  The offsets are multiples of
    the scale, so the quotient [xOffset / scale] is an integer. *)
Definition place (scale : Z) (st : placing) (name : string) : placing :=
  {| draws := draws st ++ [(name, xOffset st)];
     metadata :=
       assign name
         {| width := spriteWidth; height := spriteHeight;
            x := xOffset st / scale; y := 0; pixelRatio := scale |}
         (metadata st);
     xOffset := xOffset st + spriteWidth * scale |}%Z.

Definition place_all (scale : Z) (names : list string) : placing :=
  fold_left (place scale) names {| draws := []; metadata := ∅; xOffset := 0 |}.

(** One sheet: the canvas size, what is drawn where, and the two files. *)
Record sheet : Type := {
  totalWidth : Z;
  totalHeight : Z;
  placed : placing;
  png_name : string;
  json_name : string
}.

Definition build_sheet (names : list string) (c : config) : sheet :=
  {| totalWidth := spriteWidth * scale c * Z.of_nat (length names);
     totalHeight := spriteHeight * scale c;
     placed := place_all (scale c) names;
     png_name := "sprite" ++ suffix c ++ ".png";
     json_name := "sprite" ++ suffix c ++ ".json" |}%Z.

(** The sheets [generateSprites] builds for the SVG files found: none when
    there is no file, else one per configuration. *)
Definition generateSprites (names : list string) : list sheet :=
  match names with
  | [] => []
  | _ :: _ => map (build_sheet names) CONFIGS
  end.

End Sprites.

(** ** Inputs used to run the definitions *)

Module Inputs.

(** The compatibility table of the specification's examples:
    [{2: [2, 3], 3: [3]}]. *)
Definition table_2_3 : gmap string (list decnum) :=
  {[ "2" := [Int 2; Int 3]; "3" := [Int 3] ]}.

Definition metadata_with_version (v : string) : option VersionCheck.metadata :=
  Some (VersionCheck.MetadataObject (Some v)).

(** A page served from a host that is neither local nor GitHub Pages, a
    GitHub Pages project site, and a local development server. *)
Definition env_other : TileConfig.environment :=
  {| TileConfig.VITE_CADDY_HOST := None; TileConfig.VITE_CADDY_PORT := None;
     TileConfig.hostname := "maps.example.org"; TileConfig.pathname := "/" |}.

Definition env_pages : TileConfig.environment :=
  {| TileConfig.VITE_CADDY_HOST := None; TileConfig.VITE_CADDY_PORT := None;
     TileConfig.hostname := "ciesin.github.io";
     TileConfig.pathname := "/GRID3_mapTiles/index.html" |}.

Definition env_local : TileConfig.environment :=
  {| TileConfig.VITE_CADDY_HOST := None; TileConfig.VITE_CADDY_PORT := None;
     TileConfig.hostname := "localhost"; TileConfig.pathname := "/" |}.

(** A network on which every request is answered 200 OK, one on which
    nothing ever answers, and one on which every request is refused. *)
Definition net_up : TileConfig.network :=
  fun _ => TileConfig.FetchFirst
             (TileConfig.Responds {| TileConfig.status := 200; TileConfig.ok := true |}).

Definition net_silent : TileConfig.network := fun _ => TileConfig.TimerFirst.

Definition net_refused : TileConfig.network :=
  fun _ => TileConfig.FetchFirst (TileConfig.Rejects TypeError).

(** A dropped local file, and two views: the page as first loaded with an
    empty fragment, and the same page after that file was dropped. *)
Definition dropped_file : PMTiles :=
  {| instance := 0; source_key := "kinshasa.pmtiles" |}.

Definition view_default : ViewState.signals := ViewState.initial ∅.

Definition view_dropped : ViewState.signals :=
  {| ViewState.flavorName := "light"; ViewState.lang := "en";
     ViewState.tiles := ViewState.DEFAULT_TILES;
     ViewState.localSprites := false; ViewState.showBoxes := false;
     ViewState.publishedStyleVersion := None;
     ViewState.droppedArchive := Some dropped_file |}.

(** A remote archive already opened, and the registry holding it. *)
Definition remote_url : string := "https://tiles.example.org/drc.pmtiles".

Definition remote_archive : PMTiles := {| instance := 0; source_key := remote_url |}.

Definition registry_one : gmap string PMTiles := {[ remote_url := remote_archive ]}.

(** Stand-ins for the two imported functions of the style composer:
    layers are named by strings, a flavor is its name, an archive URL is
    one ending in [.pmtiles]. *)
Definition isValidPMTiles_suffix (u : string) : completion bool :=
  Normal (endsWith u ".pmtiles").

Definition layers_three (source : string) (flavor : string) (lang : string)
  : completion (list string) :=
  Normal ["land"; "water"; "roads"].

(** An [isValidPMTiles] and a [layers] that always throw. *)
Definition isValidPMTiles_throws (u : string) : completion bool := Throw TypeError.

Definition layers_throws (source : string) (flavor : string) (lang : string)
  : completion (list string) := Throw TypeError.

End Inputs.

Module MoreInputs.

(** A fragment naming a theme and a language, and the fragment read back
    after the page wrote its record. *)
Definition fragment_dark_fr : gmap string string :=
  {[ "flavorName" := "dark"; "lang" := "fr"; "map" := "7/-4.3/15.3" ]}.

(** The OSM way 1234 as a feature id: type bits 2, id 1234. *)
Definition way_1234 : Z := (2 * 2 ^ 44 + 1234)%Z.

Definition three_icons : list string := ["clinic"; "hospital"; "school"].

(** The environment files left empty. *)
Definition root_env_empty : ViteConfig.root_env :=
  {| ViteConfig.HOST_IP := None; ViteConfig.CADDY_HTTP_PORT := None |}.

(** A mounted protocol holding one remote archive, one archive built. *)
Definition mounted_one : Registry.state :=
  {| Registry.protocolRef := Some Inputs.registry_one; Registry.constructed := 1 |}.

End MoreInputs.

(** * Properties *)

(** ** Strings *)

Lemma prefix_append (p s : string) : String.prefix p (p ++ s) = true.
Proof.
  induction p as [|c p IH]; simpl.
  - now destruct s.
  - destruct (ascii_dec c c) as [_|Hne]; [exact IH | now elim Hne].
Qed.

Lemma includes_startsWith (s p : string) :
  startsWith s p = true -> includes s p = true.
Proof. intros Hp. destruct s; cbn [includes]; now rewrite Hp. Qed.

Lemma includes_here (p s : string) : includes (p ++ s) p = true.
Proof. apply includes_startsWith, prefix_append. Qed.

Lemma includes_append_l (a s p : string) :
  includes s p = true -> includes (a ++ s) p = true.
Proof.
  intros Hs. induction a as [|c a IH]; [exact Hs|].
  change (startsWith (String c (a ++ s)) p || includes (a ++ s) p = true).
  rewrite IH. apply orb_true_r.
Qed.

Lemma append_associative (a b c : string) : (a ++ b) ++ c = a ++ (b ++ c).
Proof.
  induction a as [|x a IH]; [reflexivity|].
  change (String x ((a ++ b) ++ c) = String x (a ++ (b ++ c))). now rewrite IH.
Qed.

(** A string with something before it still occurs in the whole. *)
Lemma includes_prefixed (a p b : string) : includes (a ++ p ++ b) (a ++ p) = true.
Proof. rewrite <- (append_associative a p b). apply includes_here. Qed.

Example js_split_version : js_split "." "2.0.1" = ["2"; "0"; "1"].
Proof. reflexivity. Qed.

Example js_split_path :
  js_split "/" "/GRID3_mapTiles/index.html" = [EmptyString; "GRID3_mapTiles"; "index.html"].
Proof. reflexivity. Qed.

Example js_split_no_separator : js_split "." "9" = ["9"].
Proof. reflexivity. Qed.

Example includes_github : includes "ciesin.github.io" "github.io" = true.
Proof. reflexivity. Qed.

Example endsWith_json :
  endsWith "https://tiles.example.org/tiles.json" ".json" = true /\
  endsWith "https://tiles.example.org/drc.pmtiles" ".json" = false.
Proof. split; reflexivity. Qed.

(** ** Version compatibility check *)

Section VersionCheckFacts.
Context `{JsNumber num}.
Variable table : gmap string (list num).

Import VersionCheck.

(** [indexOf] is negative exactly when no element is [===] to the value. *)
Lemma indexOf_from_negative (arr : list num) (x : num) (i : Z) :
  (0 <= i)%Z ->
  (indexOf_from i arr x < 0)%Z <-> Forall (fun y => strict_equal y x = false) arr.
Proof.
  revert i. induction arr as [|y arr IH]; intros i Hi; simpl.
  - split; [constructor | lia].
  - destruct (strict_equal y x) eqn:E.
    + split; [lia | intros Hall; inversion Hall; congruence].
    + rewrite (IH (i + 1)%Z ltac:(lia)). split.
      * now constructor.
      * intros Hall; now inversion Hall.
Qed.

Lemma indexOf_negative (arr : list num) (x : num) :
  (indexOf arr x < 0)%Z <-> Forall (fun y => strict_equal y x = false) arr.
Proof. apply indexOf_from_negative; lia. Qed.

(** A tileset major version that is not a key of the table makes the
    callback throw, whatever the style version and the current message. *)
Lemma check_callback_absent npmVersion version mismatch :
  table !! NumberToString (tilesetMajorVersion version) = None ->
  check_callback table npmVersion (Some (MetadataObject (Some version))) mismatch
  = Throw TypeError.
Proof. intros Habs. unfold check_callback. now rewrite Habs. Qed.

(** Without archive information, or without a version in the metadata,
    the message is left as it is. *)
Lemma check_callback_no_version npmVersion mismatch :
  check_callback table npmVersion None mismatch = Normal mismatch /\
  check_callback table npmVersion (Some NotAnObject) mismatch = Normal mismatch /\
  check_callback table npmVersion (Some (MetadataObject None)) mismatch = Normal mismatch.
Proof. repeat split. Qed.

(** A known tileset major version whose list holds the style's major
    version clears the message. *)
Lemma check_callback_compatible npmVersion version mismatch compatible :
  table !! NumberToString (tilesetMajorVersion version) = Some compatible ->
  Exists (fun y => strict_equal y (styleMajorVersion npmVersion) = true) compatible ->
  check_callback table npmVersion (Some (MetadataObject (Some version))) mismatch
  = Normal EmptyString.
Proof.
  intros Hkey Hex. unfold check_callback. rewrite Hkey.
  destruct (Z.ltb_spec (indexOf compatible (styleMajorVersion npmVersion)) 0) as [Hneg|_];
    [|reflexivity].
  apply indexOf_negative in Hneg. exfalso.
  apply Exists_exists in Hex as (y & Hy & Heq).
  rewrite Forall_forall in Hneg. specialize (Hneg y Hy). congruence.
Qed.

(** C8: when the tileset's major version (the number read from the text
    before the first dot of its version string) is a key of the
    compatibility table and no element of its list is equal to the
    style's major version, the check sets a mismatch message; the message
    is not empty and names both the style major version and the tileset
    major version. *)
Theorem incompatible_names_both_versions npmVersion version mismatch compatible :
  table !! NumberToString (tilesetMajorVersion version) = Some compatible ->
  Forall (fun y => strict_equal y (styleMajorVersion npmVersion) = false) compatible ->
  let style := styleMajorVersion npmVersion in
  let tileset := tilesetMajorVersion version in
  let message := mismatch_message style tileset in
  check_callback table npmVersion (Some (MetadataObject (Some version))) mismatch
    = Normal message /\
  truthy message = true /\
  includes message ("style v" ++ NumberToString style) = true /\
  includes message ("tileset v" ++ NumberToString tileset) = true.
Proof.
  intros Hkey Hnone style tileset message. subst message.
  apply indexOf_negative in Hnone. apply Z.ltb_lt in Hnone.
  repeat split.
  - subst style tileset. unfold check_callback. rewrite Hkey, Hnone. reflexivity.
  - unfold mismatch_message. apply includes_prefixed.
  - unfold mismatch_message.
    change ("style v" ++ NumberToString style
              ++ " may not be compatible with tileset v" ++ NumberToString tileset ++ ". ")
      with ("style v" ++ NumberToString style
              ++ " may not be compatible with " ++ "tileset v" ++ NumberToString tileset ++ ". ").
    do 3 apply includes_append_l. apply includes_prefixed.
Qed.

End VersionCheckFacts.

(** The check of the specification's example: style 5 (no published style
    version selected) against tileset ["2.0.1"] under the table
    [{2: [2, 3], 3: [3]}]. *)
Lemma incompatible_names_both_versions_witness :
  VersionCheck.check_callback Inputs.table_2_3 None
    (Inputs.metadata_with_version "2.0.1") EmptyString
  = Normal "style v5 may not be compatible with tileset v2. ".
Proof.
  refine (proj1 (incompatible_names_both_versions Inputs.table_2_3 None "2.0.1"
                   EmptyString [Int 2; Int 3] _ _)).
  - reflexivity.
  - repeat constructor.
Defined.

(** C1: under the table [{2: [2, 3], 3: [3]}], a tileset of version
    ["9.0.0"] has major version 9, which is not a key of the table; the
    check for style version ["2.0.0"] then ends in a thrown [TypeError]
    instead of a cleared message. *)
Theorem unknown_tileset_major_throws :
  VersionCheck.tilesetMajorVersion "9.0.0" = Int 9 /\
  Inputs.table_2_3 !! NumberToString (Int 9) = None /\
  VersionCheck.check_callback Inputs.table_2_3 (Some "2.0.0")
    (Inputs.metadata_with_version "9.0.0") EmptyString
  = Throw TypeError.
Proof. repeat split. Qed.

(** ** Endpoint configuration *)

Section TileConfigFacts.
Import TileConfig.

(** The probe's request goes to the health URL and nowhere else. *)
Lemma checkCaddyAvailability_requests net c :
  snd (checkCaddyAvailability net c) = [caddy_health (endpoints_caddy c)].
Proof. reflexivity. Qed.

(** The probe's answer, by what the network does. *)
Lemma checkCaddyAvailability_cases net c :
  fst (checkCaddyAvailability net c) =
  match net (caddy_health (endpoints_caddy c)) with
  | FetchFirst (Responds r) => Normal (ok r)
  | FetchFirst (Rejects _) => Normal false
  | TimerFirst => Normal false
  end.
Proof.
  unfold checkCaddyAvailability, await_fetch; simpl.
  destruct (net _) as [[r|e]|]; reflexivity.
Qed.

Lemma checkCaddyAvailability_total net c :
  exists b, fst (checkCaddyAvailability net c) = Normal b.
Proof.
  rewrite checkCaddyAvailability_cases.
  destruct (net _) as [[r|e]|]; eauto.
Qed.

(** C5: for every configuration (hence every health URL) and every
    behaviour of the network, the probe ends normally with a boolean; it
    is [false] when the timer aborts the request in flight and when the
    request is rejected (network or CORS failure, or any other error). *)
Theorem probe_never_throws net c :
  (exists b, fst (checkCaddyAvailability net c) = Normal b) /\
  (net (caddy_health (endpoints_caddy c)) = TimerFirst ->
   fst (checkCaddyAvailability net c) = Normal false) /\
  (forall e, net (caddy_health (endpoints_caddy c)) = FetchFirst (Rejects e) ->
   fst (checkCaddyAvailability net c) = Normal false).
Proof.
  split; [apply checkCaddyAvailability_total|].
  rewrite checkCaddyAvailability_cases. split.
  - now intros ->.
  - now intros e ->.
Qed.

Lemma probe_then_choose_spec net c :
  exists b,
    fst (checkCaddyAvailability net c) = Normal b /\
    probe_then_choose net c =
    {| result := Normal (if b then caddy else github);
       after := set_currentEndpoint (if b then caddy else github) c;
       requested := [caddy_health (endpoints_caddy c)] |}.
Proof.
  destruct (checkCaddyAvailability_total net c) as [b Hb].
  exists b. split; [exact Hb|].
  pose proof (checkCaddyAvailability_requests net c) as Hlog.
  unfold probe_then_choose.
  destruct (checkCaddyAvailability net c) as [avail log].
  simpl in Hb, Hlog. subst avail log.
  now destruct b.
Qed.

(** C6, as the code has it: on localhost and on GitHub Pages the health
    URL is probed once and [caddy] is chosen exactly when the probe
    answers [true], [github] otherwise; in every other hosting context
    [github] is chosen and nothing is probed. *)
Theorem selectBestEndpoint_by_context net c :
  (isLocalhost c = true \/ isGitHubPages c = true ->
   exists b,
     fst (checkCaddyAvailability net c) = Normal b /\
     result (selectBestEndpoint net c) = Normal (if b then caddy else github) /\
     requested (selectBestEndpoint net c) = [caddy_health (endpoints_caddy c)]) /\
  (isLocalhost c = false -> isGitHubPages c = false ->
   result (selectBestEndpoint net c) = Normal github /\
   requested (selectBestEndpoint net c) = []).
Proof.
  split.
  - intros Hctx. destruct (probe_then_choose_spec net c) as (b & Hb & Hrun).
    exists b. split; [exact Hb|].
    unfold selectBestEndpoint.
    destruct (isLocalhost c); [rewrite Hrun; now split|].
    destruct (isGitHubPages c); [rewrite Hrun; now split|].
    destruct Hctx; discriminate.
  - intros Hl Hg. unfold selectBestEndpoint. rewrite Hl, Hg. now split.
Qed.

(** Selection always completes, and leaves the chosen endpoint in
    [currentEndpoint]. *)
Lemma selectBestEndpoint_selects net c :
  exists e,
    result (selectBestEndpoint net c) = Normal e /\
    currentEndpoint (after (selectBestEndpoint net c)) = Some e.
Proof.
  destruct (probe_then_choose_spec net c) as (b & _ & Hrun).
  unfold selectBestEndpoint.
  destruct (isLocalhost c); [rewrite Hrun; eauto|].
  destruct (isGitHubPages c); [rewrite Hrun; eauto|].
  eauto.
Qed.

(** The two context flags, from the host name of the page. *)
Lemma constructor_context env :
  isLocalhost (constructor env) =
    (String.eqb (hostname env) "localhost" || String.eqb (hostname env) "127.0.0.1") /\
  isGitHubPages (constructor env) = includes (hostname env) "github.io".
Proof.
  unfold constructor, detectEnvironment.
  destruct (includes _ _); [now split|].
  destruct (_ || _); now split.
Qed.

(** A freshly constructed instance has no endpoint selected. *)
Lemma constructor_unselected env : currentEndpoint (constructor env) = None.
Proof.
  unfold constructor, detectEnvironment.
  destruct (includes _ _); [reflexivity|].
  destruct (_ || _); reflexivity.
Qed.

(** While [currentEndpoint] is still [null] (as it is right after
    construction) both URL getters throw the "Endpoint not selected"
    error. *)
Lemma getters_before_selection c tileName :
  currentEndpoint c = None ->
  getPMTilesUrl c tileName =
    Throw (Error "Endpoint not selected. Call selectBestEndpoint() first.") /\
  getPMTilesBaseUrl c tileName =
    Throw (Error "Endpoint not selected. Call selectBestEndpoint() first.").
Proof.
  intros Hnull. unfold getPMTilesUrl, getPMTilesBaseUrl. rewrite Hnull. now split.
Qed.

(** On the instance left by [selectBestEndpoint], which always completes,
    neither getter throws: on [caddy] both return the URL of the file
    under the Caddy static base; on [github] they return the file under
    [endpoints.github.pmtiles] when that was set, and a string that starts
    with the text [null] when it was not. *)
Lemma getters_after_selection net c tileName :
  let c' := after (selectBestEndpoint net c) in
  (result (selectBestEndpoint net c) = Normal caddy /\
   getPMTilesBaseUrl c' tileName
     = Normal (caddy_pmtiles (endpoints_caddy c) ++ "/" ++ tileName) /\
   getPMTilesUrl c' tileName
     = Normal ("pmtiles://" ++ caddy_pmtiles (endpoints_caddy c) ++ "/" ++ tileName)) \/
  (result (selectBestEndpoint net c) = Normal github /\
   match endpoints_github_pmtiles c with
   | Some base =>
       getPMTilesBaseUrl c' tileName = Normal (base ++ "/" ++ tileName) /\
       getPMTilesUrl c' tileName = Normal ("pmtiles://" ++ base ++ "/" ++ tileName)
   | None =>
       getPMTilesBaseUrl c' tileName = Normal ("null/" ++ tileName) /\
       getPMTilesUrl c' tileName = Normal ("pmtiles://null/" ++ tileName)
   end).
Proof.
  intros c'. subst c'.
  destruct (probe_then_choose_spec net c) as (b & _ & Hrun).
  unfold selectBestEndpoint.
  destruct (isLocalhost c); [|destruct (isGitHubPages c)]; rewrite ?Hrun;
    try destruct b; simpl;
    try (left; repeat split; fail);
    right; (split; [reflexivity|]);
    unfold getPMTilesUrl, getPMTilesBaseUrl; simpl;
    destruct (endpoints_github_pmtiles c); now split.
Qed.

(** C10: on a page served from a host that is neither local nor GitHub
    Pages the getters throw before selection, as everywhere; but after
    [selectBestEndpoint] has completed there (with [github]),
    [endpoints.github.pmtiles] is still [null] and the two getters return
    strings built from the text [null], not the URL of the tile file (as
    they do after selection on a local page and on a GitHub Pages site). *)
Theorem other_host_getters_return_null_text :
  let before := constructor Inputs.env_other in
  let selected := after (selectBestEndpoint Inputs.net_up before) in
  let local := after (selectBestEndpoint Inputs.net_up (constructor Inputs.env_local)) in
  let pages := after (selectBestEndpoint Inputs.net_silent (constructor Inputs.env_pages)) in
  getPMTilesUrl before "roads.pmtiles"
    = Throw (Error "Endpoint not selected. Call selectBestEndpoint() first.") /\
  result (selectBestEndpoint Inputs.net_up before) = Normal github /\
  endpoints_github_pmtiles selected = None /\
  getPMTilesUrl selected "roads.pmtiles" = Normal "pmtiles://null/roads.pmtiles" /\
  getPMTilesBaseUrl selected "roads.pmtiles" = Normal "null/roads.pmtiles" /\
  getPMTilesBaseUrl local "roads.pmtiles"
    = Normal "http://127.0.0.1:3002/static/roads.pmtiles" /\
  getPMTilesBaseUrl pages "roads.pmtiles" = Normal "/GRID3_mapTiles/tiles/roads.pmtiles".
Proof. repeat split. Qed.

End TileConfigFacts.

(** The probe on a network where nothing answers: the timer aborts the
    request and the answer is [false]. *)
Lemma probe_never_throws_witness :
  fst (TileConfig.checkCaddyAvailability Inputs.net_silent
         (TileConfig.constructor Inputs.env_local)) = Normal false.
Proof.
  apply (proj1 (proj2 (probe_never_throws Inputs.net_silent
                         (TileConfig.constructor Inputs.env_local)))).
  reflexivity.
Defined.

(** Selection on a GitHub Pages site from which the Caddy server answers. *)
Lemma selectBestEndpoint_by_context_witness :
  exists b,
    fst (TileConfig.checkCaddyAvailability Inputs.net_up
           (TileConfig.constructor Inputs.env_pages)) = Normal b /\
    TileConfig.result (TileConfig.selectBestEndpoint Inputs.net_up
                         (TileConfig.constructor Inputs.env_pages))
      = Normal (if b then TileConfig.caddy else TileConfig.github) /\
    TileConfig.requested (TileConfig.selectBestEndpoint Inputs.net_up
                            (TileConfig.constructor Inputs.env_pages))
      = ["http://127.0.0.1:3002/health"].
Proof.
  apply (proj1 (selectBestEndpoint_by_context Inputs.net_up
                  (TileConfig.constructor Inputs.env_pages))).
  right. reflexivity.
Defined.

(** On a page served from another host the Caddy server is not probed even
    though it would answer: the probe would return [true], yet the
    selection is [github] and no request is made. *)
Lemma other_host_is_not_probed :
  let c := TileConfig.constructor Inputs.env_other in
  TileConfig.isLocalhost c = false /\
  TileConfig.isGitHubPages c = false /\
  fst (TileConfig.checkCaddyAvailability Inputs.net_up c) = Normal true /\
  TileConfig.result (TileConfig.selectBestEndpoint Inputs.net_up c)
    = Normal TileConfig.github /\
  TileConfig.requested (TileConfig.selectBestEndpoint Inputs.net_up c) = [].
Proof. repeat split. Qed.

(** The getters before selection on a local development page. *)
Example getters_before_selection_local :
  TileConfig.getPMTilesUrl (TileConfig.constructor Inputs.env_local) "roads.pmtiles"
    = Throw (Error "Endpoint not selected. Call selectBestEndpoint() first.") /\
  TileConfig.getPMTilesBaseUrl (TileConfig.constructor Inputs.env_local) "roads.pmtiles"
    = Throw (Error "Endpoint not selected. Call selectBestEndpoint() first.").
Proof. apply getters_before_selection, constructor_unselected. Qed.

(** ** Archive registry *)

Section RegistryFacts.
Import Registry.

Lemma add_twice (a : PMTiles) (p : gmap string PMTiles) : add a (add a p) = add a p.
Proof. unfold add. apply insert_insert_eq. Qed.

Lemma get_or_create_hit key (p : gmap string PMTiles) n h :
  p !! key = Some h -> get_or_create key p n = (h, p, n).
Proof. intros Hh. unfold get_or_create. now rewrite Hh. Qed.

(** After get-or-create the key is registered, to the handle returned. *)
Lemma get_or_create_registers key (p : gmap string PMTiles) n :
  (get_or_create key p n).1.2 !! key = Some (get_or_create key p n).1.1.
Proof.
  unfold get_or_create. destruct (p !! key) as [h|] eqn:E; simpl; [exact E|].
  unfold add; simpl. apply lookup_insert_eq.
Qed.

Lemma get_or_create_again key (p : gmap string PMTiles) n :
  get_or_create key (get_or_create key p n).1.2 (get_or_create key p n).2
  = get_or_create key p n.
Proof.
  pose proof (get_or_create_registers key p n) as Hreg.
  destruct (get_or_create key p n) as [[a p'] n']. simpl in *.
  now apply get_or_create_hit.
Qed.

Lemma resolve_again pr st :
  resolve pr (resolve pr st).2 = ((resolve pr st).1, (resolve pr st).2).
Proof.
  destruct pr as [dropped url], st as [mounted n].
  destruct dropped as [a|].
  - destruct mounted as [p|]; unfold resolve; simpl; [|reflexivity].
    now rewrite add_twice.
  - destruct url as [u|]; [|reflexivity].
    unfold resolve; simpl.
    destruct (endsWith u ".json"); simpl; [reflexivity|].
    destruct mounted as [p|]; simpl; [|reflexivity].
    destruct (truthy u); simpl; [|reflexivity].
    pose proof (get_or_create_again u p n) as Hagain.
    destruct (get_or_create u p n) as [[a p'] n']. simpl in *.
    now rewrite Hagain.
Qed.

(** C3: a handle already registered under a key is returned as it is,
    with the registry unchanged and nothing constructed; asking twice for
    the same key gives the same instance both times, registered under
    that key, and the second request leaves the registry and the number
    of constructed archives as they were; [archiveInfo] as a whole
    resolves to the same archive, from the same registry, when run again;
    and for a tile URL (not empty, not a TileJSON document) on a mounted
    protocol it does resolve to an archive, the registered one if there
    is one. *)
Theorem get_or_create_dedup :
  (forall key (p : gmap string PMTiles) n h,
     p !! key = Some h -> get_or_create key p n = (h, p, n)) /\
  (forall key (p : gmap string PMTiles) n,
     let first := get_or_create key p n in
     get_or_create key first.1.2 first.2 = first /\
     first.1.2 !! key = Some first.1.1) /\
  (forall pr st,
     let first := resolve pr st in
     resolve pr first.2 = first) /\
  (forall key (p : gmap string PMTiles) n,
     truthy key = true -> endsWith key ".json" = false ->
     exists a st',
       resolve {| droppedArchive := None; tiles := Some key |}
               {| protocolRef := Some p; constructed := n |} = (Archive a, st') /\
       (forall h, p !! key = Some h ->
                  a = h /\ st' = {| protocolRef := Some p; constructed := n |})).
Proof.
  split; [exact get_or_create_hit|]. split; [|split].
  - intros key p n first. subst first. split.
    + apply get_or_create_again.
    + apply get_or_create_registers.
  - intros pr st first. subst first.
    rewrite (resolve_again pr st). now destruct (resolve pr st).
  - intros key p n Ht Hj. unfold resolve; simpl. rewrite Hj, Ht.
    destruct (get_or_create key p n) as [[a p'] n'] eqn:E.
    exists a, {| protocolRef := Some p'; constructed := n' |}.
    split; [reflexivity|].
    intros h Hh. rewrite (get_or_create_hit key p n h Hh) in E.
    now inversion E.
Qed.

End RegistryFacts.

(** Asking for an archive that the registry already holds, with one archive
    constructed so far. *)
Lemma get_or_create_dedup_witness :
  Registry.get_or_create Inputs.remote_url Inputs.registry_one 1
  = (Inputs.remote_archive, Inputs.registry_one, 1%nat).
Proof.
  apply (proj1 get_or_create_dedup Inputs.remote_url Inputs.registry_one 1%nat
           Inputs.remote_archive).
  reflexivity.
Defined.

(** ** Style composition *)

Section StyleFacts.
Variables (Layer Flavor : Type).
Variable isValidPMTiles : string -> completion bool.
Variable layers : string -> Flavor -> string -> completion (list Layer).
Variables (location_protocol location_host : string).

Import Style.

Local Abbreviation compose :=
  (getMaplibreStyle Layer Flavor isValidPMTiles layers location_protocol location_host).

Local Abbreviation vector_source u :=
  {| type := "vector"; attribution := ATTRIBUTION; url := u |}.

(** C4: for every language, sprite mode, flavor name, override layers and
    dropped archive, composition with [tiles] undefined or empty, or with
    the flavor undefined, returns normally the style with no source and
    no layer, whatever the imported functions would do. *)
Theorem unresolved_style_is_empty lang localSprites flavorName flavor tiles
    npmLayers droppedArchive :
  truthy_opt tiles = false \/ flavor = None ->
  exists style,
    compose lang localSprites flavorName flavor tiles npmLayers droppedArchive
      = Normal style /\
    sources Layer style = ∅ /\
    style_layers Layer style = [].
Proof.
  intros Hunresolved. exists (empty_style Layer).
  split; [|split; reflexivity].
  unfold getMaplibreStyle.
  destruct tiles as [t|]; [|reflexivity].
  destruct flavor as [fl|]; [|reflexivity].
  destruct Hunresolved as [Ht|Hf]; [|discriminate].
  simpl in Ht. now rewrite Ht.
Qed.

(** The composed style, once the source reference and the layers are
    known. *)
Lemma compose_resolved lang localSprites flavorName fl t npmLayers droppedArchive
    withProtocol generated :
  truthy t = true ->
  tilesWithProtocol isValidPMTiles t droppedArchive = Normal withProtocol ->
  layer_stack Layer Flavor layers lang fl npmLayers = Normal generated ->
  compose lang localSprites flavorName (Some fl) (Some t) npmLayers droppedArchive
  = Normal
      {| version := 8;
         sources := {[ "protomaps" := vector_source withProtocol ]};
         style_layers := generated;
         sprite := Some (sprite_url location_protocol location_host
                           localSprites flavorName);
         glyphs := Some GLYPHS |}.
Proof.
  intros Ht Hp Hl. unfold getMaplibreStyle. rewrite Ht, Hp, Hl. reflexivity.
Qed.

(** C7: with a non-empty source reference, a flavor and a layer stack at
    hand, the composed style has exactly one source, the vector source
    named [protomaps]; its URL is the [pmtiles://] scheme followed by the
    dropped archive's key when an archive was dropped; otherwise the
    scheme followed by the reference when [isValidPMTiles] accepts it;
    otherwise the reference itself. *)
Theorem source_reference_precedence lang localSprites flavorName fl t npmLayers
    droppedArchive generated :
  truthy t = true ->
  layer_stack Layer Flavor layers lang fl npmLayers = Normal generated ->
  (forall archive,
     droppedArchive = Some archive ->
     exists style,
       compose lang localSprites flavorName (Some fl) (Some t) npmLayers droppedArchive
         = Normal style /\
       sources Layer style =
         {[ "protomaps" := vector_source ("pmtiles://" ++ source_key archive) ]} /\
       size (sources Layer style) = 1%nat) /\
  (forall valid,
     droppedArchive = None ->
     isValidPMTiles t = Normal valid ->
     exists style,
       compose lang localSprites flavorName (Some fl) (Some t) npmLayers droppedArchive
         = Normal style /\
       sources Layer style =
         {[ "protomaps" := vector_source (if valid then "pmtiles://" ++ t else t) ]} /\
       size (sources Layer style) = 1%nat).
Proof.
  intros Ht Hl. split.
  - intros archive ->. eexists. split.
    + apply compose_resolved; [exact Ht | reflexivity | exact Hl].
    + split; [reflexivity | apply map_size_singleton].
  - intros valid -> Hvalid. eexists. split.
    + apply compose_resolved; [exact Ht | | exact Hl].
      unfold tilesWithProtocol. rewrite Hvalid. reflexivity.
    + split; [reflexivity | apply map_size_singleton].
Qed.

End StyleFacts.

(** An empty source reference, with imported functions that would throw. *)
Lemma unresolved_style_is_empty_witness :
  exists style,
    Style.getMaplibreStyle string string Inputs.isValidPMTiles_throws Inputs.layers_throws
      "https:" "maps.example.org" "fr" true (Some "dark") (Some "dark") (Some EmptyString)
      (Some ["land"]) None = Normal style /\
    Style.sources string style = ∅ /\
    Style.style_layers string style = [].
Proof.
  apply unresolved_style_is_empty. left. reflexivity.
Defined.

(** A dropped file takes precedence over a valid archive URL. *)
Lemma source_reference_precedence_witness :
  exists style,
    Style.getMaplibreStyle string string Inputs.isValidPMTiles_suffix Inputs.layers_three
      "https:" "maps.example.org" "en" false (Some "light") (Some "light")
      (Some Inputs.remote_url) None (Some Inputs.dropped_file) = Normal style /\
    Style.sources string style =
      {[ "protomaps" :=
           {| Style.type := "vector"; Style.attribution := Style.ATTRIBUTION;
              Style.url := "pmtiles://kinshasa.pmtiles" |} ]} /\
    size (Style.sources string style) = 1%nat.
Proof.
  refine (proj1 (source_reference_precedence string string Inputs.isValidPMTiles_suffix
                   Inputs.layers_three "https:" "maps.example.org" "en" false
                   (Some "light") "light" Inputs.remote_url None
                   (Some Inputs.dropped_file) ["land"; "water"; "roads"] _ _)
            Inputs.dropped_file _); reflexivity.
Defined.

(** ** The hash record *)

Section ViewStateFacts.
Import ViewState.

Lemma field_tiles s :
  field "tiles" (hash_record s) =
  match droppedArchive s with
  | Some _ => None
  | None => if String.eqb (tiles s) DEFAULT_TILES then None else Some (tiles s)
  end.
Proof. reflexivity. Qed.

(** C2, as the code has it: the record's [tiles] field is undefined
    exactly when an archive is dropped or the tile source is the default
    one, and is the tile URL otherwise; so a URL other than the default
    is told apart from the two other states, while a dropped archive and
    an absent tile source are written the same way, by leaving the key
    out. *)
Theorem tiles_field_three_states s :
  (field "tiles" (hash_record s) = None <->
   droppedArchive s <> None \/ tiles s = DEFAULT_TILES) /\
  (droppedArchive s = None -> tiles s <> DEFAULT_TILES ->
   field "tiles" (hash_record s) = Some (tiles s)) /\
  (forall s', droppedArchive s <> None ->
              droppedArchive s' = None -> tiles s' = DEFAULT_TILES ->
              field "tiles" (hash_record s) = field "tiles" (hash_record s')).
Proof.
  rewrite field_tiles.
  destruct (droppedArchive s) as [a|] eqn:Ed.
  - split; [|split].
    + split; [intros _; now left | reflexivity].
    + discriminate.
    + intros s' _ Hd' Ht'. rewrite field_tiles, Hd', Ht'.
      now rewrite String.eqb_refl.
  - destruct (String.eqb_spec (tiles s) DEFAULT_TILES) as [Heq|Hne].
    + split; [|split].
      * split; [intros _; now right | reflexivity].
      * intros _ Hne. now elim Hne.
      * intros s' Hd. now elim Hd.
    + split; [|split].
      * split; [discriminate | intros [Hd|Ht]; [now elim Hd | now elim Hne]].
      * reflexivity.
      * intros s' Hd. now elim Hd.
Qed.

(** The record itself leaves [tiles], [local_sprites], [show_boxes] and
    [npm_version] undefined when they are at their defaults (default tile
    source, flag off, no published style version), while [flavorName] and
    [lang] are always set, to whatever the theme and the language are. *)
Lemma record_fields_at_defaults s :
  (tiles s = DEFAULT_TILES -> field "tiles" (hash_record s) = None) /\
  (localSprites s = false -> field "local_sprites" (hash_record s) = None) /\
  (showBoxes s = false -> field "show_boxes" (hash_record s) = None) /\
  (truthy_opt (publishedStyleVersion s) = false ->
   field "npm_version" (hash_record s) = None) /\
  field "flavorName" (hash_record s) = Some (flavorName s) /\
  field "lang" (hash_record s) = Some (lang s).
Proof.
  repeat split.
  - intros Ht. rewrite field_tiles, Ht, String.eqb_refl. now destruct (droppedArchive s).
  - intros Hl. unfold field, hash_record; simpl. now rewrite Hl.
  - intros Hb. unfold field, hash_record; simpl. now rewrite Hb.
  - intros Hv. unfold field, hash_record; simpl. now rewrite Hv.
Qed.

(** Under the specification's [createHash], a key of the record is in the
    fragment exactly when its field is defined and differs from the
    declared default, and then with the field's value; whatever else the
    fragment held is kept. *)
Lemma createHash_one (existing : fragment) k v (j : string) :
  createHash existing [(k, v)] !! j =
  if decide (k = j) then written_value k v else existing !! j.
Proof.
  unfold createHash; simpl. destruct (written_value k v) as [w|].
  - rewrite lookup_insert. now case_decide.
  - rewrite lookup_delete. now case_decide.
Qed.

Lemma createHash_cons (existing : fragment) k v kv record :
  createHash existing ((k, v) :: kv :: record)
  = createHash (createHash existing [(k, v)]) (kv :: record).
Proof. reflexivity. Qed.

Lemma encode_lookup (existing : fragment) s (j : string) :
  encode existing s !! j =
  if bool_decide (j ∈ RECORD_KEYS)
  then written_value j (field j (hash_record s))
  else existing !! j.
Proof.
  unfold encode, hash_record, RECORD_KEYS.
  rewrite !createHash_cons, !createHash_one.
  repeat (case_decide; [subst j; reflexivity|]).
  rewrite bool_decide_eq_false_2; [reflexivity|].
  rewrite !elem_of_cons, elem_of_nil. intuition congruence.
Qed.

Lemma written_value_default (k x : string) :
  DECLARED_DEFAULTS !! k = Some x -> written_value k (Some x) = None.
Proof. intros Hd. unfold written_value. now rewrite bool_decide_eq_true_2. Qed.

(** C9: for every view state and every existing fragment, the fragment
    written by the encoder has no key for a field at its declared default:
    none for the theme [light], for the language [en], for the default
    tile source, for a flag that is off, nor for an absent (or empty)
    published style version; also when the existing fragment had the
    key. *)
Theorem default_fields_not_in_fragment (existing : fragment) s :
  (flavorName s = "light" -> encode existing s !! "flavorName" = None) /\
  (lang s = "en" -> encode existing s !! "lang" = None) /\
  (tiles s = DEFAULT_TILES -> encode existing s !! "tiles" = None) /\
  (localSprites s = false -> encode existing s !! "local_sprites" = None) /\
  (showBoxes s = false -> encode existing s !! "show_boxes" = None) /\
  (truthy_opt (publishedStyleVersion s) = false ->
   encode existing s !! "npm_version" = None).
Proof.
  destruct (record_fields_at_defaults s) as (Ht & Hl & Hb & Hv & Hfn & Hlg).
  rewrite !encode_lookup. change (bool_decide (_ ∈ RECORD_KEYS)) with true.
  cbv iota. rewrite Hfn, Hlg. repeat split.
  - intros ->. now apply written_value_default.
  - intros ->. now apply written_value_default.
  - intros Hd. now rewrite (Ht Hd).
  - intros Hd. now rewrite (Hl Hd).
  - intros Hd. now rewrite (Hb Hd).
  - intros Hd. now rewrite (Hv Hd).
Qed.

(** A theme or a language other than the default is written, with its
    value, and keys the record does not have are kept. *)
Lemma encode_fragment (existing : fragment) s :
  (flavorName s <> "light" -> encode existing s !! "flavorName" = Some (flavorName s)) /\
  (lang s <> "en" -> encode existing s !! "lang" = Some (lang s)) /\
  (droppedArchive s <> None -> encode existing s !! "tiles" = None) /\
  encode existing s !! "map" = existing !! "map".
Proof.
  destruct (record_fields_at_defaults s) as (_ & _ & _ & _ & Hfn & Hlg).
  rewrite !encode_lookup. change (bool_decide ("flavorName" ∈ RECORD_KEYS)) with true.
  change (bool_decide ("lang" ∈ RECORD_KEYS)) with true.
  change (bool_decide ("tiles" ∈ RECORD_KEYS)) with true.
  change (bool_decide ("map" ∈ RECORD_KEYS)) with false.
  cbv iota. rewrite Hfn, Hlg. repeat split.
  - intros Hne. unfold written_value. rewrite bool_decide_eq_false_2; [reflexivity|].
    intros [= Heq]. now apply Hne.
  - intros Hne. unfold written_value. rewrite bool_decide_eq_false_2; [reflexivity|].
    intros [= Heq]. now apply Hne.
  - intros Hd. rewrite field_tiles. now destruct (droppedArchive s).
Qed.

End ViewStateFacts.

(** The record of the page loaded with an empty fragment. *)
Lemma tiles_field_three_states_witness :
  ViewState.field "tiles" (ViewState.hash_record Inputs.view_default) = None.
Proof.
  apply (proj2 (proj1 (tiles_field_three_states Inputs.view_default))).
  right. reflexivity.
Defined.

(** The page loaded on a fragment that still names the default theme: the
    key is gone from the fragment written. *)
Lemma default_fields_not_in_fragment_witness :
  ViewState.encode {[ "flavorName" := "light" ]} Inputs.view_default !! "flavorName" = None.
Proof.
  apply (proj1 (default_fields_not_in_fragment {[ "flavorName" := "light" ]}
                  Inputs.view_default)).
  reflexivity.
Defined.

(** A view with a dropped archive and a view with no tile source set get
    the same record, hence the same [tiles] encoding. *)
Lemma dropped_and_absent_encode_alike :
  ViewState.droppedArchive Inputs.view_dropped = Some Inputs.dropped_file /\
  ViewState.droppedArchive Inputs.view_default = None /\
  ViewState.tiles Inputs.view_default = ViewState.DEFAULT_TILES /\
  ViewState.field "tiles" (ViewState.hash_record Inputs.view_dropped)
    = ViewState.field "tiles" (ViewState.hash_record Inputs.view_default) /\
  ViewState.hash_record Inputs.view_dropped = ViewState.hash_record Inputs.view_default.
Proof. repeat split. Qed.

(** With every field at its default, the record handed to [createHash]
    still carries the theme and the language: leaving them out of the
    fragment is the encoder's part. *)
Example default_record_has_theme_and_language :
  ViewState.field "flavorName" (ViewState.hash_record Inputs.view_default)
    = Some "light" /\
  ViewState.field "lang" (ViewState.hash_record Inputs.view_default) = Some "en".
Proof. repeat split. Qed.


(** * Further properties *)

(** ** Endpoint configuration, from construction to tile URLs *)

Section TileConfigMore.
Import TileConfig.

Lemma set_currentEndpoint_fields e c :
  endpoints_caddy (set_currentEndpoint e c) = endpoints_caddy c /\
  endpoints_github_pmtiles (set_currentEndpoint e c) = endpoints_github_pmtiles c /\
  isLocalhost (set_currentEndpoint e c) = isLocalhost c /\
  isGitHubPages (set_currentEndpoint e c) = isGitHubPages c /\
  repoName (set_currentEndpoint e c) = repoName c /\
  basePath (set_currentEndpoint e c) = basePath c /\
  currentEndpoint (set_currentEndpoint e c) = Some e.
Proof. repeat split. Qed.

(** The instance after selection is the one before with [currentEndpoint]
    set to the endpoint returned. *)
Lemma selectBestEndpoint_after net c :
  exists e,
    result (selectBestEndpoint net c) = Normal e /\
    after (selectBestEndpoint net c) = set_currentEndpoint e c.
Proof.
  destruct (probe_then_choose_spec net c) as (b & _ & Hrun).
  unfold selectBestEndpoint.
  destruct (isLocalhost c); [rewrite Hrun; eauto|].
  destruct (isGitHubPages c); [rewrite Hrun; eauto|].
  eauto.
Qed.

Lemma flags_of_hostname env :
  isLocalhost (constructor env) = true -> isGitHubPages (constructor env) = false.
Proof.
  destruct (constructor_context env) as [-> ->].
  intros Hlocal. apply orb_true_iff in Hlocal as [Hl|Hl];
    apply String.eqb_eq in Hl; rewrite Hl; reflexivity.
Qed.

(** X1: a page is never taken for both a local and a GitHub Pages one, and
    [selectBestEndpoint] makes a request exactly when [getInfo] does not
    report the environment as ["other"]. *)
Theorem contexts_exclusive_and_probed env net :
  let c := constructor env in
  (isLocalhost c && isGitHubPages c = false) /\
  (requested (selectBestEndpoint net c) = [] <-> getInfo_environment c = "other") /\
  (requested (selectBestEndpoint net c) <> [] ->
   requested (selectBestEndpoint net c) = [caddy_health (endpoints_caddy c)]).
Proof.
  intros c. subst c.
  pose proof (flags_of_hostname env) as Hex.
  destruct (probe_then_choose_spec net (constructor env)) as (b & _ & Hrun).
  unfold selectBestEndpoint, getInfo_environment. rewrite Hrun.
  destruct (isLocalhost (constructor env)).
  - rewrite (Hex eq_refl). simpl. split; [reflexivity|]. split; [|reflexivity].
    split; discriminate.
  - destruct (isGitHubPages (constructor env)); simpl.
    + split; [reflexivity|]. split; [|reflexivity]. split; discriminate.
    + split; [reflexivity|]. split; [now split | intros Hne; now elim Hne].
Qed.

(** X2: the probe answers [true] exactly when the health request is
    answered, before the timer fires, by a response whose [ok] flag is
    set; a response that is not [ok] gives [false] like a failure. *)
Theorem probe_true_iff_ok net c :
  fst (checkCaddyAvailability net c) = Normal true <->
  exists r, net (caddy_health (endpoints_caddy c)) = FetchFirst (Responds r) /\ ok r = true.
Proof.
  rewrite checkCaddyAvailability_cases.
  destruct (net _) as [[r|e]|]; split.
  - intros Hr. exists r. split; [reflexivity | congruence].
  - intros (r' & Hr' & Hok). inversion Hr'; subst. now rewrite Hok.
  - discriminate.
  - intros (r' & Hr' & _). discriminate.
  - discriminate.
  - intros (r' & Hr' & _). discriminate.
Qed.

(** X3: selection is not remembered: a later call probes again and its
    result, and the endpoint current afterwards, are those of the later
    call alone; selection changes no other field of the instance. *)
Theorem selection_is_not_sticky net1 net2 c :
  let c1 := after (selectBestEndpoint net1 c) in
  result (selectBestEndpoint net2 c1) = result (selectBestEndpoint net2 c) /\
  requested (selectBestEndpoint net2 c1) = requested (selectBestEndpoint net2 c) /\
  after (selectBestEndpoint net2 c1) = after (selectBestEndpoint net2 c) /\
  endpoints_caddy c1 = endpoints_caddy c /\
  endpoints_github_pmtiles c1 = endpoints_github_pmtiles c /\
  isLocalhost c1 = isLocalhost c /\ isGitHubPages c1 = isGitHubPages c.
Proof.
  intros c1. subst c1.
  destruct (selectBestEndpoint_after net1 c) as (e & _ & ->).
  assert (Hsame : selectBestEndpoint net2 (set_currentEndpoint e c)
                  = selectBestEndpoint net2 c).
  { assert (Hprobe : probe_then_choose net2 (set_currentEndpoint e c)
                       = probe_then_choose net2 c).
    { destruct (probe_then_choose_spec net2 (set_currentEndpoint e c)) as (b' & Hb' & ->).
      destruct (probe_then_choose_spec net2 c) as (b & Hb & ->).
      change (checkCaddyAvailability net2 (set_currentEndpoint e c))
        with (checkCaddyAvailability net2 c) in Hb'.
      rewrite Hb in Hb'. inversion Hb'; subst. reflexivity. }
    unfold selectBestEndpoint. rewrite Hprobe. simpl.
    destruct (isLocalhost c), (isGitHubPages c); reflexivity. }
  rewrite Hsame. repeat split.
Qed.

(** X4: the MVT URL is given exactly when MVT tiles are reported
    available, that is when the current endpoint is [caddy]; before any
    selection it is [null] (no exception, unlike the PMTiles getters), and
    after a selection it is available exactly when [caddy] was returned. *)
Theorem mvt_only_on_caddy net c tableName :
  (is_Some (getMVTUrl c tableName) <-> isMVTAvailable c = true) /\
  (isMVTAvailable c = true <-> currentEndpoint c = Some caddy) /\
  (currentEndpoint c = None -> getMVTUrl c tableName = None) /\
  (isMVTAvailable (after (selectBestEndpoint net c)) = true <->
   result (selectBestEndpoint net c) = Normal caddy) /\
  (result (selectBestEndpoint net c) = Normal caddy ->
   getMVTUrl (after (selectBestEndpoint net c)) tableName
   = Some (caddy_mvt (endpoints_caddy c) ++ "/" ++ tableName ++ "/{z}/{x}/{y}")).
Proof.
  destruct (selectBestEndpoint_after net c) as (e & -> & ->).
  unfold getMVTUrl, isMVTAvailable; simpl.
  repeat split; try (destruct (currentEndpoint c) as [[|]|]);
    try (destruct e); simpl; intros; try congruence; try discriminate;
    eauto; try (now destruct H as [? ?]).
Qed.

(** The endpoints a freshly constructed instance holds. *)
Lemma constructor_endpoints env :
  let base := "http://" ++ or_default (VITE_CADDY_HOST env) "127.0.0.1" ++ ":"
                ++ or_default (VITE_CADDY_PORT env) "3002" in
  endpoints_caddy (constructor env) =
    {| caddy_pmtiles := base ++ "/static"; caddy_mvt := base ++ "/mvt";
       caddy_health := base ++ "/health" |} /\
  endpoints_github_pmtiles (constructor env) =
    if includes (hostname env) "github.io" then
      let repo := or_default (js_split "/" (pathname env) !! 1%nat) EmptyString in
      Some ((if truthy repo then "/" ++ repo else EmptyString) ++ "/tiles")
    else if String.eqb (hostname env) "localhost" || String.eqb (hostname env) "127.0.0.1"
         then Some "./tiles" else None.
Proof.
  unfold constructor, detectEnvironment.
  destruct (includes _ _); [now split|].
  destruct (_ || _); now split.
Qed.

Lemma getPMTilesUrl_after net c tileName e :
  result (selectBestEndpoint net c) = Normal e ->
  getPMTilesUrl (after (selectBestEndpoint net c)) tileName =
  Normal ("pmtiles://" ++ template_nullable (endpoint_base e c) ++ "/" ++ tileName).
Proof.
  destruct (selectBestEndpoint_after net c) as (e' & -> & ->).
  intros [= ->]. reflexivity.
Qed.

(** X5: when selection returns [caddy], the URL of a tile file is the
    [pmtiles://] scheme before [http://host:port/static/name], with the
    host and the port of the build ([127.0.0.1] and [3002] where they are
    undefined or empty). *)
Theorem caddy_tile_url env net tileName :
  result (selectBestEndpoint net (constructor env)) = Normal caddy ->
  getPMTilesUrl (after (selectBestEndpoint net (constructor env))) tileName =
  Normal ("pmtiles://http://" ++ or_default (VITE_CADDY_HOST env) "127.0.0.1" ++ ":"
            ++ or_default (VITE_CADDY_PORT env) "3002" ++ "/static/" ++ tileName).
Proof.
  intros Hres. rewrite (getPMTilesUrl_after _ _ _ _ Hres).
  unfold endpoint_base. rewrite (proj1 (constructor_endpoints env)).
  unfold template_nullable, caddy_pmtiles. f_equal.
  rewrite !append_associative. reflexivity.
Qed.

(** X6: when selection returns [github], the URL of a tile file is built
    on [/<repository>/tiles] on GitHub Pages (the repository being the
    first segment of the page's path, and [/tiles] alone when that segment
    is empty), on [./tiles] on a local page, and on the text [null] on any
    other host, where [endpoints.github.pmtiles] was never set. *)
Theorem github_tile_url env net tileName :
  result (selectBestEndpoint net (constructor env)) = Normal github ->
  let repo := or_default (js_split "/" (pathname env) !! 1%nat) EmptyString in
  getPMTilesUrl (after (selectBestEndpoint net (constructor env))) tileName =
  Normal
    (if includes (hostname env) "github.io" then
       if truthy repo then "pmtiles:///" ++ repo ++ "/tiles/" ++ tileName
       else "pmtiles:///tiles/" ++ tileName
     else if String.eqb (hostname env) "localhost" || String.eqb (hostname env) "127.0.0.1"
          then "pmtiles://./tiles/" ++ tileName
          else "pmtiles://null/" ++ tileName).
Proof.
  intros Hres repo. subst repo. rewrite (getPMTilesUrl_after _ _ _ _ Hres).
  unfold endpoint_base. rewrite (proj2 (constructor_endpoints env)). cbv zeta.
  destruct (includes _ _).
  - destruct (truthy _); unfold template_nullable; f_equal;
      rewrite ?append_associative; reflexivity.
  - destruct (_ || _); reflexivity.
Qed.

End TileConfigMore.

Lemma contexts_exclusive_and_probed_witness :
  TileConfig.requested
    (TileConfig.selectBestEndpoint Inputs.net_up (TileConfig.constructor Inputs.env_other))
  = [].
Proof.
  apply (proj2 (proj1 (proj2 (contexts_exclusive_and_probed Inputs.env_other Inputs.net_up)))).
  reflexivity.
Defined.

Lemma probe_true_iff_ok_witness :
  fst (TileConfig.checkCaddyAvailability Inputs.net_up
         (TileConfig.constructor Inputs.env_local)) = Normal true.
Proof.
  apply (proj2 (probe_true_iff_ok Inputs.net_up (TileConfig.constructor Inputs.env_local))).
  eexists. split; reflexivity.
Defined.

Lemma mvt_only_on_caddy_witness :
  TileConfig.getMVTUrl
    (TileConfig.after (TileConfig.selectBestEndpoint Inputs.net_up
                         (TileConfig.constructor Inputs.env_local)))
    "health_facilities"
  = Some "http://127.0.0.1:3002/mvt/health_facilities/{z}/{x}/{y}".
Proof.
  apply (proj2 (proj2 (proj2 (proj2
           (mvt_only_on_caddy Inputs.net_up (TileConfig.constructor Inputs.env_local)
              "health_facilities"))))).
  reflexivity.
Defined.

Lemma caddy_tile_url_witness :
  TileConfig.getPMTilesUrl
    (TileConfig.after (TileConfig.selectBestEndpoint Inputs.net_up
                         (TileConfig.constructor Inputs.env_pages)))
    "roads.pmtiles"
  = Normal "pmtiles://http://127.0.0.1:3002/static/roads.pmtiles".
Proof.
  apply (caddy_tile_url Inputs.env_pages Inputs.net_up "roads.pmtiles").
  reflexivity.
Defined.

Lemma github_tile_url_witness :
  TileConfig.getPMTilesUrl
    (TileConfig.after (TileConfig.selectBestEndpoint Inputs.net_silent
                         (TileConfig.constructor Inputs.env_pages)))
    "roads.pmtiles"
  = Normal "pmtiles:///GRID3_mapTiles/tiles/roads.pmtiles".
Proof.
  apply (github_tile_url Inputs.env_pages Inputs.net_silent "roads.pmtiles").
  reflexivity.
Defined.

(** ** Development server configuration *)

Section ViteConfigFacts.
Import TileConfig ViteConfig.

Lemma or_default_truthy o d : truthy d = true -> truthy (or_default o d) = true.
Proof.
  intros Hd. unfold or_default. destruct o as [s|]; [|exact Hd].
  destruct (truthy s) eqn:E; [exact E | exact Hd].
Qed.

Lemma or_default_of_truthy s d : truthy s = true -> or_default (Some s) d = s.
Proof. intros Hs. unfold or_default. now rewrite Hs. Qed.

Lemma or_default_falsy o d : truthy_opt o = false -> or_default o d = d.
Proof. destruct o as [s|]; [|reflexivity]. simpl. now intros ->. Qed.

(** With both variables unset the application's Caddy base is the proxy's
    target. *)
Lemma default_caddy_endpoints env hostname pathname :
  truthy_opt (HOST_IP env) = false -> truthy_opt (CADDY_HTTP_PORT env) = false ->
  endpoints_caddy (constructor (app_environment env hostname pathname)) =
    {| caddy_pmtiles := PROXY_TARGET ++ "/static"; caddy_mvt := PROXY_TARGET ++ "/mvt";
       caddy_health := PROXY_TARGET ++ "/health" |}.
Proof.
  intros Hh Hp. rewrite (proj1 (constructor_endpoints _)).
  cbn [app_environment VITE_CADDY_HOST VITE_CADDY_PORT].
  unfold envWithPrefix_host, envWithPrefix_port.
  rewrite (or_default_falsy _ _ Hh), (or_default_falsy _ _ Hp). reflexivity.
Qed.

Lemma slice_from_append (p r : string) : slice_from (String.length p) (p ++ r) = r.
Proof. induction p as [|c p IH]; [now destruct r | exact IH]. Qed.

(** X7: an application built with this configuration never falls back on
    its own defaults: the host and port substituted at build time are
    never empty, and the health URL it probes is
    [http://HOST_IP:CADDY_HTTP_PORT/health], with [127.0.0.1] and [3002]
    for a variable that is undefined or empty. *)
Theorem built_app_probes_configured_host env hostname pathname :
  let c := constructor (app_environment env hostname pathname) in
  truthy (envWithPrefix_host env) = true /\
  truthy (envWithPrefix_port env) = true /\
  caddy_health (endpoints_caddy c) =
    "http://" ++ TileConfig.or_default (HOST_IP env) "127.0.0.1" ++ ":"
      ++ TileConfig.or_default (CADDY_HTTP_PORT env) "3002" ++ "/health".
Proof.
  intros c. subst c.
  assert (Hh : truthy (envWithPrefix_host env) = true)
    by (apply or_default_truthy; reflexivity).
  assert (Hp : truthy (envWithPrefix_port env) = true)
    by (apply or_default_truthy; reflexivity).
  split; [exact Hh|]. split; [exact Hp|].
  rewrite (proj1 (constructor_endpoints _)).
  cbn [caddy_health app_environment VITE_CADDY_HOST VITE_CADDY_PORT].
  rewrite (or_default_of_truthy _ _ Hh), (or_default_of_truthy _ _ Hp).
  unfold envWithPrefix_host, envWithPrefix_port.
  rewrite !append_associative. reflexivity.
Qed.

Lemma replace_prefix_match prefix replacement rest :
  replace_prefix prefix replacement (prefix ++ rest) = replacement ++ rest.
Proof.
  unfold replace_prefix, startsWith.
  now rewrite prefix_append, slice_from_append.
Qed.

(** X8: the tiles proxy rewrites a path under [/api/tiles] to the same
    path under [/static] and leaves any other path as it is; with the
    host and the port left unset (undefined or empty) in the environment
    files, a tile requested through the proxy is fetched from the URL that
    [getPMTilesBaseUrl] gives on the [caddy] endpoint. *)
Theorem tiles_proxy_reaches_caddy env net hostname pathname tileName path :
  let c := constructor (app_environment env hostname pathname) in
  rewrite_tiles ("/api/tiles" ++ path) = "/static" ++ path /\
  (startsWith path "/api/tiles" = false -> rewrite_tiles path = path) /\
  (truthy_opt (HOST_IP env) = false -> truthy_opt (CADDY_HTTP_PORT env) = false ->
   result (selectBestEndpoint net c) = Normal caddy ->
   getPMTilesBaseUrl (after (selectBestEndpoint net c)) tileName
   = Normal (PROXY_TARGET ++ rewrite_tiles ("/api/tiles/" ++ tileName))).
Proof.
  intros c. subst c. split; [|split].
  - apply replace_prefix_match.
  - intros Hno. unfold rewrite_tiles, replace_prefix. now rewrite Hno.
  - intros Hh Hp Hres.
    destruct (selectBestEndpoint_after net
                (constructor (app_environment env hostname pathname)))
      as (e & He & ->).
    rewrite He in Hres. injection Hres as ->.
    unfold getPMTilesBaseUrl; simpl. unfold endpoint_base.
    rewrite (default_caddy_endpoints _ _ _ Hh Hp). reflexivity.
Qed.

(** X9: the MVT proxy rewrites a path under [/api/mvt] to the same path
    under [/mvt], and, with the host and the port left unset, a tile
    template requested through it is the URL [getMVTUrl] gives. *)
Theorem mvt_proxy_reaches_caddy env net hostname pathname tableName path :
  let c := constructor (app_environment env hostname pathname) in
  rewrite_mvt ("/api/mvt" ++ path) = "/mvt" ++ path /\
  (startsWith path "/api/mvt" = false -> rewrite_mvt path = path) /\
  (truthy_opt (HOST_IP env) = false -> truthy_opt (CADDY_HTTP_PORT env) = false ->
   result (selectBestEndpoint net c) = Normal caddy ->
   getMVTUrl (after (selectBestEndpoint net c)) tableName
   = Some (PROXY_TARGET ++ rewrite_mvt ("/api/mvt/" ++ tableName ++ "/{z}/{x}/{y}"))).
Proof.
  intros c. subst c. split; [|split].
  - apply replace_prefix_match.
  - intros Hno. unfold rewrite_mvt, replace_prefix. now rewrite Hno.
  - intros Hh Hp Hres.
    destruct (selectBestEndpoint_after net
                (constructor (app_environment env hostname pathname)))
      as (e & He & ->).
    rewrite He in Hres. injection Hres as ->.
    unfold getMVTUrl; simpl.
    rewrite (default_caddy_endpoints _ _ _ Hh Hp). reflexivity.
Qed.

End ViteConfigFacts.

Lemma tiles_proxy_reaches_caddy_witness :
  ViteConfig.rewrite_tiles "/tiles/roads.pmtiles" = "/tiles/roads.pmtiles".
Proof.
  apply (proj1 (proj2 (tiles_proxy_reaches_caddy MoreInputs.root_env_empty
                         Inputs.net_up "localhost" "/"
                         "roads.pmtiles" "/tiles/roads.pmtiles"))).
  reflexivity.
Defined.

Lemma mvt_proxy_reaches_caddy_witness :
  ViteConfig.rewrite_mvt "/catalog" = "/catalog".
Proof.
  apply (proj1 (proj2 (mvt_proxy_reaches_caddy MoreInputs.root_env_empty
                         Inputs.net_up "localhost" "/"
                         "health_facilities" "/catalog"))).
  reflexivity.
Defined.

(** ** Feature identifiers *)

Section FeatureIdFacts.
Import FeatureId.

Lemma low_mask : (Z.shiftl 1 44 - 1 = Z.ones 44)%Z.
Proof. reflexivity. Qed.

Lemma osm_id_mod raw : featureIdToOsmId raw = (raw mod 2 ^ 44)%Z.
Proof. unfold featureIdToOsmId. rewrite low_mask. apply Z.land_ones. lia. Qed.

Lemma type_bits_mod raw :
  Z.land (Z.shiftr raw 44) 3 = ((raw / 2 ^ 44) mod 4)%Z.
Proof.
  rewrite Z.shiftr_div_pow2 by lia.
  change 3%Z with (Z.ones 2). rewrite Z.land_ones by lia. reflexivity.
Qed.

(** X10: the OSM id of any feature id is its value modulo 2^44, so it lies
    in [0, 2^44), also for a negative input. *)
Theorem osm_id_range raw :
  featureIdToOsmId raw = (raw mod 2 ^ 44)%Z /\
  (0 <= featureIdToOsmId raw < 2 ^ 44)%Z.
Proof.
  rewrite osm_id_mod. split; [reflexivity|]. apply Z.mod_pos_bound. lia.
Qed.

(** X11: an id below 2^44 packed with a type code in bits 44 and 45 is
    read back unchanged, with the type named by the code (1 node, 2 way,
    3 relation, 0 not an OSM object), whatever the bits above. *)
Theorem unpack_packed id code high :
  (0 <= id < 2 ^ 44)%Z -> (0 <= code < 4)%Z ->
  let raw := (id + code * 2 ^ 44 + high * 2 ^ 46)%Z in
  featureIdToOsmId raw = id /\
  featureIdToOsmType raw =
    nth (Z.to_nat code) ["not_osm"; "node"; "way"; "relation"] "not_osm".
Proof.
  intros Hid Hcode raw. subst raw. split.
  - rewrite osm_id_mod.
    replace (id + code * 2 ^ 44 + high * 2 ^ 46)%Z
      with (id + (code + 4 * high) * 2 ^ 44)%Z by lia.
    rewrite Z.mod_add by lia. apply Z.mod_small. lia.
  - unfold featureIdToOsmType. rewrite type_bits_mod.
    replace (id + code * 2 ^ 44 + high * 2 ^ 46)%Z
      with (id + (code + 4 * high) * 2 ^ 44)%Z by lia.
    rewrite Z.div_add by lia. rewrite (Z.div_small id) by lia.
    replace (0 + (code + 4 * high))%Z with (code + high * 4)%Z by lia.
    rewrite Z.mod_add by lia. rewrite Z.mod_small by lia.
    assert (Hc : (code = 0 \/ code = 1 \/ code = 2 \/ code = 3)%Z) by lia.
    destruct Hc as [->|[->|[->| ->]]]; reflexivity.
Qed.

Lemma type_not_osm raw :
  featureIdToOsmType raw = "not_osm" <-> Z.land (Z.shiftr raw 44) 3 = 0%Z.
Proof.
  unfold featureIdToOsmType.
  pose proof (type_bits_mod raw) as Hbits.
  pose proof (Z.mod_pos_bound (raw / 2 ^ 44) 4 ltac:(lia)) as Hrange.
  rewrite <- Hbits in Hrange.
  set (t := Z.land (Z.shiftr raw 44) 3) in *.
  assert (Hc : (t = 0 \/ t = 1 \/ t = 2 \/ t = 3)%Z) by lia.
  destruct Hc as [->|[->|[->| ->]]]; simpl; split; congruence.
Qed.

(** X12: [displayId] renders a link exactly for a non-zero id whose type
    bits are not both zero; the link then points to
    [https://openstreetmap.org/<type>/<id>] with the decoded type and id;
    any other id is rendered as it is. *)
Theorem displayId_link featureId :
  match displayId featureId with
  | OsmLink href text =>
      exists raw,
        featureId = Some raw /\ raw <> 0%Z /\ Z.land (Z.shiftr raw 44) 3 <> 0%Z /\
        href = "https://openstreetmap.org/" ++ featureIdToOsmType raw ++ "/"
                 ++ pretty (featureIdToOsmId raw) /\
        text = featureIdToOsmType raw ++ " " ++ pretty (featureIdToOsmId raw)
  | Plain shown =>
      shown = featureId /\
      (forall raw, featureId = Some raw ->
                   raw = 0%Z \/ Z.land (Z.shiftr raw 44) 3 = 0%Z)
  end.
Proof.
  unfold displayId. destruct featureId as [raw|]; [|split; [reflexivity | discriminate]].
  destruct (Z.eqb_spec raw 0) as [H0|H0].
  - split; [reflexivity|]. intros r [= <-]. now left.
  - destruct (String.eqb_spec (featureIdToOsmType raw) "not_osm") as [Ht|Ht]; simpl.
    + split; [reflexivity|]. intros r [= <-]. right. now apply type_not_osm.
    + exists raw. repeat split; try assumption.
      intros Hbits. apply Ht. now apply type_not_osm.
Qed.

End FeatureIdFacts.

Lemma displayId_link_witness :
  exists raw,
    Some MoreInputs.way_1234 = Some raw /\ raw <> 0%Z /\
    Z.land (Z.shiftr raw 44) 3 <> 0%Z /\
    "https://openstreetmap.org/way/1234" =
      "https://openstreetmap.org/" ++ FeatureId.featureIdToOsmType raw ++ "/"
        ++ pretty (FeatureId.featureIdToOsmId raw) /\
    "way 1234" =
      FeatureId.featureIdToOsmType raw ++ " " ++ pretty (FeatureId.featureIdToOsmId raw).
Proof.
  exact (displayId_link (Some MoreInputs.way_1234)).
Defined.

Lemma unpack_packed_witness :
  FeatureId.featureIdToOsmId MoreInputs.way_1234 = 1234%Z /\
  FeatureId.featureIdToOsmType MoreInputs.way_1234 = "way".
Proof.
  apply (unpack_packed 1234 2 0); lia.
Defined.

(** ** Archive registry, beyond get-or-create *)

Section RegistryMore.
Import Registry.

Lemma add_lookup (a : PMTiles) (p : gmap string PMTiles) k :
  add a p !! k = if decide (source_key a = k) then Some a else p !! k.
Proof. unfold add. apply lookup_insert. Qed.

Lemma add_keyed (a : PMTiles) (p : gmap string PMTiles) :
  keyed_by_source p -> keyed_by_source (add a p).
Proof.
  intros Hp k h. rewrite add_lookup. case_decide as Hk.
  - now intros [= <-].
  - apply Hp.
Qed.

Lemma get_or_create_keyed key (p : gmap string PMTiles) n :
  keyed_by_source p -> keyed_by_source (get_or_create key p n).1.2.
Proof.
  intros Hp. unfold get_or_create. destruct (p !! key); simpl; [exact Hp|].
  now apply add_keyed.
Qed.

(** The state [archiveInfo] leaves, case by case. *)
Lemma resolve_state pr st :
  (resolve pr st).2 =
  match protocolRef st with
  | None => st
  | Some p =>
      match droppedArchive pr, tiles pr with
      | Some a, _ => {| protocolRef := Some (add a p); constructed := constructed st |}
      | None, Some u =>
          if endsWith u ".json" then st
          else if truthy u then
            {| protocolRef := Some (get_or_create u p (constructed st)).1.2;
               constructed := (get_or_create u p (constructed st)).2 |}
          else st
      | None, None => st
      end
  end.
Proof.
  destruct pr as [[a|] [u|]], st as [[p|] n]; unfold resolve; simpl;
    try reflexivity; try (destruct (endsWith u ".json"); reflexivity).
  destruct (endsWith u ".json"); [reflexivity|].
  destruct (truthy u); [|reflexivity].
  now destruct (get_or_create u p n) as [[a p'] n'].
Qed.

(** X13: [archiveInfo] keeps every handle of the registry under the key of
    its own source, so a [pmtiles://key] reference finds the archive whose
    source has that key. *)
Theorem resolve_keeps_keys_by_source pr st :
  (forall p, protocolRef st = Some p -> keyed_by_source p) ->
  forall p', protocolRef (resolve pr st).2 = Some p' -> keyed_by_source p'.
Proof.
  intros Hst p'. rewrite resolve_state.
  destruct (protocolRef st) as [p|] eqn:Ep; [|intros Hp'; rewrite Hp' in Ep; discriminate].
  specialize (Hst p eq_refl).
  destruct (droppedArchive pr) as [a|].
  - intros [= <-]. now apply add_keyed.
  - destruct (tiles pr) as [u|]; [|rewrite Ep; now intros [= <-]].
    destruct (endsWith u ".json"); [rewrite Ep; now intros [= <-]|].
    destruct (truthy u); [|rewrite Ep; now intros [= <-]].
    intros [= <-]. now apply get_or_create_keyed.
Qed.

(** X14: on a mounted protocol a dropped archive takes the registry entry
    of its source key, whatever was registered there before; every other
    entry is untouched, no archive is constructed, and the dropped archive
    is the one resolved, whatever the tile URL is. *)
Theorem dropped_archive_takes_its_key a url (p : gmap string PMTiles) n :
  let run := resolve {| droppedArchive := Some a; tiles := url |}
                     {| protocolRef := Some p; constructed := n |} in
  run.1 = Archive a /\
  registered run.2 (source_key a) = Some a /\
  (forall k, k <> source_key a -> registered run.2 k = p !! k) /\
  constructed run.2 = n.
Proof.
  intros run. subst run. unfold resolve, registered; simpl.
  repeat split.
  - rewrite add_lookup. now case_decide.
  - intros k Hk. rewrite add_lookup. case_decide; congruence.
Qed.

(** X15: [archiveInfo] never removes an archive from the registry and
    constructs at most one; it mounts nothing by itself, and while the
    protocol is not mounted it changes nothing and resolves to no
    archive. *)
Theorem resolve_only_adds pr st :
  (forall k, is_Some (registered st k) -> is_Some (registered (resolve pr st).2 k)) /\
  (constructed st <= constructed (resolve pr st).2 <= S (constructed st))%nat /\
  (is_Some (protocolRef (resolve pr st).2) <-> is_Some (protocolRef st)) /\
  (protocolRef st = None ->
   (resolve pr st).2 = st /\ forall a, (resolve pr st).1 <> Archive a).
Proof.
  split; [|split; [|split]].
  - intros k. rewrite resolve_state. unfold registered.
    destruct (protocolRef st) as [p|] eqn:Ep; [|now rewrite Ep].
    destruct (droppedArchive pr) as [a|]; simpl.
    + rewrite add_lookup. case_decide; eauto.
    + destruct (tiles pr) as [u|]; [|now rewrite Ep].
      destruct (endsWith u ".json"); [now rewrite Ep|].
      destruct (truthy u); [|now rewrite Ep]. simpl.
      unfold get_or_create. destruct (p !! u) eqn:Eu; simpl; [trivial|].
      rewrite add_lookup. case_decide; eauto.
  - rewrite resolve_state.
    destruct (protocolRef st) as [p|]; [|lia].
    destruct (droppedArchive pr) as [a|]; simpl; [lia|].
    destruct (tiles pr) as [u|]; [|lia].
    destruct (endsWith u ".json"); [lia|].
    destruct (truthy u); [|lia]. simpl.
    unfold get_or_create. destruct (p !! u); simpl; lia.
  - rewrite resolve_state.
    destruct (protocolRef st) as [p|] eqn:Ep; [|now rewrite Ep].
    destruct (droppedArchive pr) as [a|]; simpl; [split; eauto|].
    destruct (tiles pr) as [u|]; [|now rewrite Ep].
    destruct (endsWith u ".json"); [now rewrite Ep|].
    destruct (truthy u); [|now rewrite Ep]. simpl. split; eauto.
  - intros Hnone. split.
    + rewrite resolve_state. now rewrite Hnone.
    + intros a. destruct pr as [[d|] [u|]]; unfold resolve; simpl; rewrite ?Hnone;
        try discriminate; destruct (endsWith u ".json"); discriminate.
Qed.

End RegistryMore.

Lemma resolve_keeps_keys_by_source_witness :
  source_key Inputs.remote_archive = Inputs.remote_url.
Proof.
  refine (resolve_keeps_keys_by_source
            {| Registry.droppedArchive := Some Inputs.dropped_file; Registry.tiles := None |}
            MoreInputs.mounted_one _
            (Registry.add Inputs.dropped_file Inputs.registry_one) eq_refl
            Inputs.remote_url Inputs.remote_archive _).
  - intros p [= <-] k h. unfold Inputs.registry_one.
    rewrite lookup_singleton. case_decide as Hk; [|discriminate].
    intros [= <-]. exact Hk.
  - reflexivity.
Defined.

Lemma dropped_archive_takes_its_key_witness :
  Registry.registered
    (Registry.resolve
       {| Registry.droppedArchive := Some Inputs.dropped_file;
          Registry.tiles := Some Inputs.remote_url |}
       MoreInputs.mounted_one).2 Inputs.remote_url
  = Some Inputs.remote_archive.
Proof.
  apply (proj1 (proj2 (proj2
           (dropped_archive_takes_its_key Inputs.dropped_file (Some Inputs.remote_url)
              Inputs.registry_one 1))) Inputs.remote_url).
  discriminate.
Defined.

Lemma resolve_only_adds_witness :
  (Registry.resolve
     {| Registry.droppedArchive := Some Inputs.dropped_file; Registry.tiles := None |}
     {| Registry.protocolRef := None; Registry.constructed := 0 |}).2
  = {| Registry.protocolRef := None; Registry.constructed := 0 |}.
Proof.
  apply (proj2 (proj2 (proj2
           (resolve_only_adds
              {| Registry.droppedArchive := Some Inputs.dropped_file;
                 Registry.tiles := None |}
              {| Registry.protocolRef := None; Registry.constructed := 0 |})))).
  reflexivity.
Defined.

(** ** Style composition: layers, failures, and the registry *)

Section StyleMore.
Variables (Layer Flavor : Type).
Variable isValidPMTiles : string -> completion bool.
Variable layers : string -> Flavor -> string -> completion (list Layer).
Variables (location_protocol location_host : string).

Import Style.

Local Abbreviation compose :=
  (getMaplibreStyle Layer Flavor isValidPMTiles layers location_protocol location_host).

(** The composition of a resolved reference, step by step. *)
Lemma compose_steps lang localSprites flavorName fl t npmLayers droppedArchive :
  truthy t = true ->
  compose lang localSprites flavorName (Some fl) (Some t) npmLayers droppedArchive =
  (withProtocol <- tilesWithProtocol isValidPMTiles t droppedArchive ;;;
   generated <- layer_stack Layer Flavor layers lang fl npmLayers ;;;
   Normal
     {| version := 8;
        sources := {[ "protomaps" :=
                        {| type := "vector"; attribution := ATTRIBUTION;
                           url := withProtocol |} ]};
        style_layers := generated;
        sprite := Some (sprite_url location_protocol location_host
                          localSprites flavorName);
        glyphs := Some GLYPHS |}).
Proof. intros Ht. unfold getMaplibreStyle. now rewrite Ht. Qed.

(** X16: a non-empty list of override layers becomes the style's layers as
    it is, in the same order, and the flavor's layers are not asked for (so
    a failure there does not matter); with the override undefined or empty
    the style's layers are those generated for the flavor and language. *)
Theorem override_layers_verbatim lang localSprites flavorName fl t npmLayers
    droppedArchive withProtocol :
  truthy t = true ->
  tilesWithProtocol isValidPMTiles t droppedArchive = Normal withProtocol ->
  (forall l ls,
     npmLayers = Some (l :: ls) ->
     exists style,
       compose lang localSprites flavorName (Some fl) (Some t) npmLayers droppedArchive
         = Normal style /\
       style_layers Layer style = l :: ls) /\
  (forall generated,
     npmLayers = None \/ npmLayers = Some [] ->
     layers "protomaps" fl lang = Normal generated ->
     exists style,
       compose lang localSprites flavorName (Some fl) (Some t) npmLayers droppedArchive
         = Normal style /\
       style_layers Layer style = generated).
Proof.
  intros Ht Hp. split.
  - intros l ls ->. rewrite (compose_steps _ _ _ _ _ _ _ Ht), Hp. simpl. eauto.
  - intros generated Hnone Hl. rewrite (compose_steps _ _ _ _ _ _ _ Ht), Hp.
    destruct Hnone as [-> | ->]; simpl; rewrite Hl; simpl; eauto.
Qed.

(** X17: composing a resolved reference throws only when an imported
    function that is consulted throws: [isValidPMTiles], consulted when no
    archive is dropped, or [layers], consulted after that when there are no
    override layers; the exception is the one that function threw. *)
Theorem compose_throws_only_from_imports lang localSprites flavorName fl t npmLayers
    droppedArchive e :
  truthy t = true ->
  compose lang localSprites flavorName (Some fl) (Some t) npmLayers droppedArchive
    = Throw e <->
  (droppedArchive = None /\ isValidPMTiles t = Throw e) \/
  ((droppedArchive <> None \/ exists valid, isValidPMTiles t = Normal valid) /\
   (npmLayers = None \/ npmLayers = Some []) /\
   layers "protomaps" fl lang = Throw e).
Proof.
  intros Ht. rewrite (compose_steps _ _ _ _ _ _ _ Ht).
  unfold tilesWithProtocol, layer_stack.
  destruct droppedArchive as [a|]; simpl.
  - destruct npmLayers as [[|l ls]|]; simpl.
    + destruct (layers "protomaps" fl lang) as [g|e'] eqn:El; simpl; split.
      * discriminate.
      * intros [[? _]|(_ & _ & ?)]; discriminate.
      * intros [= ->]. right. split; [now left|]. split; [now right | reflexivity].
      * intros [[? _]|(_ & _ & [= ->])]; [discriminate | reflexivity].
    + split; [discriminate|].
      intros [[? _]|(_ & [?|?] & _)]; discriminate.
    + destruct (layers "protomaps" fl lang) as [g|e'] eqn:El; simpl; split.
      * discriminate.
      * intros [[? _]|(_ & _ & ?)]; discriminate.
      * intros [= ->]. right. split; [now left|]. split; [now left | reflexivity].
      * intros [[? _]|(_ & _ & [= ->])]; [discriminate | reflexivity].
  - destruct (isValidPMTiles t) as [valid|e'] eqn:Ev; simpl.
    + destruct npmLayers as [[|l ls]|]; simpl.
      * destruct (layers "protomaps" fl lang) as [g|e''] eqn:El; simpl; split.
        -- discriminate.
        -- intros [[_ ?]|(_ & _ & ?)]; discriminate.
        -- intros [= ->]. right. split; [right; eauto|]. split; [now right | reflexivity].
        -- intros [[_ ?]|(_ & _ & [= ->])]; [discriminate | reflexivity].
      * split; [discriminate|].
        intros [[_ ?]|(_ & [?|?] & _)]; discriminate.
      * destruct (layers "protomaps" fl lang) as [g|e''] eqn:El; simpl; split.
        -- discriminate.
        -- intros [[_ ?]|(_ & _ & ?)]; discriminate.
        -- intros [= ->]. right. split; [right; eauto|]. split; [now left | reflexivity].
        -- intros [[_ ?]|(_ & _ & [= ->])]; [discriminate | reflexivity].
    + split.
      * intros [= ->]. now left.
      * intros [[_ [= ->]]|([Hd|[valid Hv]] & _)]; [reflexivity | now elim Hd | discriminate].
Qed.

(** X18: once [archiveInfo] has run on a mounted protocol, the key that
    the composed style refers to after [pmtiles://] is registered, to the
    archive [archiveInfo] resolved: the dropped archive's key when one is
    dropped, else the tile URL when it is a valid archive URL (and not a
    TileJSON one). *)
Theorem style_source_is_registered lang localSprites flavorName fl t npmLayers
    droppedArchive generated (p : gmap string PMTiles) n :
  truthy t = true ->
  layer_stack Layer Flavor layers lang fl npmLayers = Normal generated ->
  (droppedArchive <> None \/
   (isValidPMTiles t = Normal true /\ endsWith t ".json" = false)) ->
  let run := Registry.resolve
               {| Registry.droppedArchive := droppedArchive; Registry.tiles := Some t |}
               {| Registry.protocolRef := Some p; Registry.constructed := n |} in
  exists style key archive,
    compose lang localSprites flavorName (Some fl) (Some t) npmLayers droppedArchive
      = Normal style /\
    url <$> (sources Layer style !! "protomaps") = Some ("pmtiles://" ++ key) /\
    run.1 = Registry.Archive archive /\
    Registry.registered run.2 key = Some archive.
Proof.
  intros Ht Hl Hcase run. subst run.
  rewrite (compose_steps _ _ _ _ _ _ _ Ht), Hl.
  destruct droppedArchive as [a|].
  - exists
      {| version := 8;
         sources := {[ "protomaps" :=
                         {| type := "vector"; attribution := ATTRIBUTION;
                            url := "pmtiles://" ++ source_key a |} ]};
         style_layers := generated;
         sprite := Some (sprite_url location_protocol location_host
                           localSprites flavorName);
         glyphs := Some GLYPHS |}, (source_key a), a.
    split; [reflexivity|]. split; [simpl; now rewrite lookup_singleton_eq|].
    split; [reflexivity|].
    unfold Registry.resolve, Registry.registered; simpl.
    unfold Registry.add. apply lookup_insert_eq.
  - destruct Hcase as [Hd|[Hv Hj]]; [now elim Hd|].
    unfold tilesWithProtocol. rewrite Hv. simpl.
    pose proof (get_or_create_registers t p n) as Hreg.
    unfold Registry.resolve, Registry.registered; simpl. rewrite Hj, Ht.
    destruct (Registry.get_or_create t p n) as [[a p'] n']. simpl in *.
    eexists _, t, a.
    split; [reflexivity|]. split; [simpl; now rewrite lookup_singleton_eq|].
    split; [reflexivity | exact Hreg].
Qed.

End StyleMore.

Lemma override_layers_verbatim_witness :
  exists style,
    Style.getMaplibreStyle string string Inputs.isValidPMTiles_suffix Inputs.layers_throws
      "https:" "maps.example.org" "en" false (Some "light") (Some "light")
      (Some Inputs.remote_url) (Some ["roads"; "water"]) None = Normal style /\
    Style.style_layers string style = ["roads"; "water"].
Proof.
  refine (proj1 (override_layers_verbatim string string Inputs.isValidPMTiles_suffix
                   Inputs.layers_throws "https:" "maps.example.org" "en" false
                   (Some "light") "light" Inputs.remote_url (Some ["roads"; "water"])
                   None ("pmtiles://" ++ Inputs.remote_url) _ _) "roads" ["water"] _);
    reflexivity.
Defined.

Lemma compose_throws_only_from_imports_witness :
  Style.getMaplibreStyle string string Inputs.isValidPMTiles_throws Inputs.layers_three
    "https:" "maps.example.org" "en" false (Some "light") (Some "light")
    (Some Inputs.remote_url) None None = Throw TypeError.
Proof.
  apply (proj2 (compose_throws_only_from_imports string string
                  Inputs.isValidPMTiles_throws Inputs.layers_three "https:"
                  "maps.example.org" "en" false (Some "light") "light"
                  Inputs.remote_url None None TypeError eq_refl)).
  left. split; reflexivity.
Defined.

Lemma style_source_is_registered_witness :
  exists style key archive,
    Style.getMaplibreStyle string string Inputs.isValidPMTiles_suffix Inputs.layers_three
      "https:" "maps.example.org" "en" false (Some "light") (Some "light")
      (Some Inputs.remote_url) None None = Normal style /\
    Style.url <$> (Style.sources string style !! "protomaps")
      = Some ("pmtiles://" ++ key) /\
    (Registry.resolve
       {| Registry.droppedArchive := None; Registry.tiles := Some Inputs.remote_url |}
       {| Registry.protocolRef := Some ∅; Registry.constructed := 0 |}).1
      = Registry.Archive archive /\
    Registry.registered
      (Registry.resolve
         {| Registry.droppedArchive := None; Registry.tiles := Some Inputs.remote_url |}
         {| Registry.protocolRef := Some ∅; Registry.constructed := 0 |}).2 key
      = Some archive.
Proof.
  apply (style_source_is_registered string string Inputs.isValidPMTiles_suffix
           Inputs.layers_three "https:" "maps.example.org" "en" false (Some "light")
           "light" Inputs.remote_url None None ["land"; "water"; "roads"] ∅ 0%nat).
  - reflexivity.
  - reflexivity.
  - right. split; reflexivity.
Defined.

(** ** Version check: when the message is cleared or kept *)

Section VersionCheckMore.
Context `{JsNumber num}.
Variable table : gmap string (list num).

Import VersionCheck.

Lemma indexOf_from_found (arr : list num) (x : num) (i : Z) :
  (0 <= i)%Z -> (0 <= indexOf_from i arr x)%Z ->
  Exists (fun y => strict_equal y x = true) arr.
Proof.
  revert i. induction arr as [|y arr IH]; intros i Hi; simpl; [lia|].
  destruct (strict_equal y x) eqn:E.
  - intros _. now constructor.
  - intros Hfound. apply Exists_cons_tl. apply (IH (i + 1)%Z); [lia | exact Hfound].
Qed.

Lemma mismatch_message_not_empty (style tileset : num) :
  mismatch_message style tileset <> EmptyString.
Proof. discriminate. Qed.

(** X19: for an archive whose metadata has a version, the message is
    cleared exactly when the tileset's major version is a key of the table
    and its list holds a value equal to the style's major version. *)
Theorem message_cleared_iff_compatible npmVersion version mismatch :
  check_callback table npmVersion (Some (MetadataObject (Some version))) mismatch
    = Normal EmptyString <->
  exists compatible,
    table !! NumberToString (tilesetMajorVersion version) = Some compatible /\
    Exists (fun y => strict_equal y (styleMajorVersion npmVersion) = true) compatible.
Proof.
  split.
  - unfold check_callback.
    destruct (table !! NumberToString (tilesetMajorVersion version)) as [compatible|];
      [|discriminate].
    destruct (Z.ltb_spec (indexOf compatible (styleMajorVersion npmVersion)) 0)
      as [Hneg|Hpos].
    + intros Hempty. exfalso. injection Hempty. apply mismatch_message_not_empty.
    + intros _. exists compatible. split; [reflexivity|].
      apply (indexOf_from_found compatible _ 0%Z); [lia | exact Hpos].
  - intros (compatible & Hkey & Hex). now apply check_callback_compatible with compatible.
Qed.

End VersionCheckMore.

Lemma message_cleared_iff_compatible_witness :
  VersionCheck.check_callback Inputs.table_2_3 (Some "3.1.0")
    (Inputs.metadata_with_version "2.0.1") "style v5 may not be compatible with tileset v2. "
  = Normal EmptyString.
Proof.
  apply (proj2 (message_cleared_iff_compatible Inputs.table_2_3 (Some "3.1.0") "2.0.1" _)).
  exists [Int 2; Int 3]. split; [reflexivity|].
  apply Exists_cons_tl. now constructor.
Defined.

(** ** The view state read from a fragment and written back *)

Section ViewStateMore.
Import ViewState.

Lemma or_default_is_truthy o d : truthy d = true -> truthy (TileConfig.or_default o d) = true.
Proof.
  intros Hd. unfold TileConfig.or_default. destruct o as [s|]; [|exact Hd].
  destruct (truthy s) eqn:E; [exact E | exact Hd].
Qed.

Lemma initial_truthy (hash : fragment) :
  truthy (flavorName (initial hash)) = true /\
  truthy (lang (initial hash)) = true /\
  truthy (tiles (initial hash)) = true /\
  droppedArchive (initial hash) = None.
Proof.
  unfold initial; simpl.
  repeat split; apply or_default_is_truthy; reflexivity.
Qed.

(** X20: whatever the fragment holds, the view starts with a non-empty
    theme, language and tile source and with no dropped archive: a key that
    is absent or has an empty value gives the default ([light], [en], the
    default tiles), and a flag is on only for the exact value [true]. *)
Theorem initial_is_complete (hash : fragment) :
  truthy (flavorName (initial hash)) = true /\
  truthy (lang (initial hash)) = true /\
  truthy (tiles (initial hash)) = true /\
  droppedArchive (initial hash) = None /\
  (truthy_opt (hash !! "flavorName") = false -> flavorName (initial hash) = "light") /\
  (truthy_opt (hash !! "lang") = false -> lang (initial hash) = "en") /\
  (truthy_opt (hash !! "tiles") = false -> tiles (initial hash) = DEFAULT_TILES) /\
  (localSprites (initial hash) = true <-> hash !! "local_sprites" = Some "true") /\
  (showBoxes (initial hash) = true <-> hash !! "show_boxes" = Some "true").
Proof.
  unfold initial; simpl.
  repeat split; try (apply or_default_is_truthy; reflexivity).
  - intros Hf. unfold TileConfig.or_default.
    destruct (hash !! "flavorName") as [s|]; [|reflexivity]. simpl in Hf. now rewrite Hf.
  - intros Hf. unfold TileConfig.or_default.
    destruct (hash !! "lang") as [s|]; [|reflexivity]. simpl in Hf. now rewrite Hf.
  - intros Hf. unfold TileConfig.or_default.
    destruct (hash !! "tiles") as [s|]; [|reflexivity]. simpl in Hf. now rewrite Hf.
  - apply bool_decide_eq_true_1.
  - apply bool_decide_eq_true_2.
  - apply bool_decide_eq_true_1.
  - apply bool_decide_eq_true_2.
Qed.

Lemma or_default_back s d : truthy s = true -> TileConfig.or_default (Some s) d = s.
Proof. intros Hs. unfold TileConfig.or_default. now rewrite Hs. Qed.

(** X21: reading a fragment, building the record and reading back a
    fragment that holds, for the six keys of the record, exactly the
    record's defined fields gives the same view again, an empty published
    style version being read back as none. *)
Theorem initial_record_round_trip (hash written : fragment) :
  Forall (fun k => written !! k = field k (hash_record (initial hash))) RECORD_KEYS ->
  initial written = without_empty_version (initial hash).
Proof.
  intros Hkeys.
  destruct (initial_truthy hash) as (Hf & Hl & Ht & Hd).
  unfold RECORD_KEYS in Hkeys.
  apply Forall_cons_1 in Hkeys as [Kf Hkeys]. apply Forall_cons_1 in Hkeys as [Kl Hkeys].
  apply Forall_cons_1 in Hkeys as [Kt Hkeys]. apply Forall_cons_1 in Hkeys as [Ks Hkeys].
  apply Forall_cons_1 in Hkeys as [Kb Hkeys]. apply Forall_cons_1 in Hkeys as [Kv _].
  set (s := initial hash) in *.
  change (written !! "flavorName" = Some (flavorName s)) in Kf.
  change (written !! "lang" = Some (lang s)) in Kl.
  rewrite field_tiles, Hd in Kt.
  change (written !! "local_sprites" = if localSprites s then Some "true" else None) in Ks.
  change (written !! "show_boxes" = if showBoxes s then Some "true" else None) in Kb.
  change (written !! "npm_version" =
          if truthy_opt (publishedStyleVersion s) then publishedStyleVersion s else None)
    in Kv.
  unfold initial at 1. rewrite Kf, Kl, Kt, Ks, Kb, Kv.
  rewrite (or_default_back _ _ Hf), (or_default_back _ _ Hl).
  unfold without_empty_version. rewrite Hd. f_equal.
  - destruct (String.eqb_spec (tiles s) DEFAULT_TILES) as [Heq|Hne];
      [now rewrite Heq | now apply or_default_back].
  - now destruct (localSprites s).
  - now destruct (showBoxes s).
Qed.

(** X22: a key press either leaves the theme alone or sets it to one of
    the five flavors, never to [undefined]: the keys 1 to 5 (character
    codes 49 to 53) select [light], [dark], [white], [grayscale] and
    [black] in that order, and no other key does anything. *)
Theorem handleKeyPress_in_range charCode :
  ((49 <= charCode <= 53)%Z ->
   exists name,
     handleKeyPress charCode = Some (Some name) /\
     KEY_FLAVORS !! Z.to_nat (charCode - 49) = Some name /\ truthy name = true) /\
  ((charCode < 49 \/ 53 < charCode)%Z -> handleKeyPress charCode = None).
Proof.
  unfold handleKeyPress. split.
  - intros Hrange.
    replace ((49 <=? charCode) && (charCode <=? 53))%Z with true
      by (symmetry; apply andb_true_iff; split; apply Z.leb_le; lia).
    assert (Hc : (charCode = 49 \/ charCode = 50 \/ charCode = 51
                  \/ charCode = 52 \/ charCode = 53)%Z) by lia.
    destruct Hc as [->|[->|[->|[->| ->]]]]; eexists; repeat split.
  - intros Hout.
    replace ((49 <=? charCode) && (charCode <=? 53))%Z with false; [reflexivity|].
    symmetry. apply andb_false_iff.
    destruct Hout; [left; apply Z.leb_gt | right; apply Z.leb_gt]; lia.
Qed.

End ViewStateMore.

Lemma initial_is_complete_witness :
  ViewState.tiles (ViewState.initial MoreInputs.fragment_dark_fr) = ViewState.DEFAULT_TILES.
Proof.
  apply (proj1 (proj2 (proj2 (proj2 (proj2 (proj2 (proj2
           (initial_is_complete MoreInputs.fragment_dark_fr)))))))).
  reflexivity.
Defined.

Lemma initial_record_round_trip_witness :
  ViewState.initial MoreInputs.fragment_dark_fr
  = ViewState.without_empty_version (ViewState.initial MoreInputs.fragment_dark_fr).
Proof.
  apply (initial_record_round_trip MoreInputs.fragment_dark_fr MoreInputs.fragment_dark_fr).
  repeat constructor.
Defined.

Lemma handleKeyPress_in_range_witness :
  exists name,
    ViewState.handleKeyPress 50 = Some (Some name) /\
    ViewState.KEY_FLAVORS !! Z.to_nat (50 - 49) = Some name /\ truthy name = true.
Proof.
  apply (proj1 (handleKeyPress_in_range 50)). lia.
Defined.

(** ** Sprite sheet layout *)

Section SpritesFacts.

Local Abbreviation entry_at scale offset :=
  {| Sprites.width := Sprites.spriteWidth; Sprites.height := Sprites.spriteHeight;
     Sprites.x := offset / scale; Sprites.y := 0; Sprites.pixelRatio := scale |}%Z.

Local Abbreviation draw_at scale st :=
  (fun (i : nat) (name : string) =>
     (name, Sprites.xOffset st + Sprites.spriteWidth * scale * Z.of_nat i)%Z).

Lemma fold_place_draws scale names st :
  Sprites.draws (fold_left (Sprites.place scale) names st) =
  (Sprites.draws st ++ imap (draw_at scale st) names)%list.
Proof.
  revert st. induction names as [|n rest IH]; intros st; simpl.
  - now rewrite app_nil_r.
  - rewrite IH. simpl. rewrite <- app_assoc. simpl. do 2 f_equal.
    + f_equal. change (Z.of_nat 0) with 0%Z. lia.
    + apply imap_ext. intros i name _. simpl. f_equal.
      unfold Sprites.spriteWidth. rewrite Nat2Z.inj_succ. unfold Z.succ. ring.
Qed.

Lemma assign_lookup name e (metadata : gmap string Sprites.entry) (k : string) :
  Sprites.assign name e metadata !! k =
  if decide (name = k /\ name <> "__proto__") then Some e else metadata !! k.
Proof.
  unfold Sprites.assign. destruct (String.eqb_spec name "__proto__") as [Hp|Hp].
  - case_decide as Hk; [now destruct Hk | reflexivity].
  - rewrite lookup_insert. repeat case_decide; try reflexivity; tauto.
Qed.

Lemma fold_place_untouched scale names st (k : string) :
  k ∉ names \/ k = "__proto__" ->
  Sprites.metadata (fold_left (Sprites.place scale) names st) !! k
  = Sprites.metadata st !! k.
Proof.
  revert st. induction names as [|n rest IH]; intros st Hk; simpl; [reflexivity|].
  rewrite IH.
  - simpl. rewrite assign_lookup. case_decide as Hn; [|reflexivity].
    destruct Hn as [-> Hp]. destruct Hk as [Hk|Hk]; [|now elim Hp].
    elim Hk. apply elem_of_cons. now left.
  - destruct Hk as [Hk|Hk]; [left|now right].
    intros Hin. apply Hk. apply elem_of_cons. now right.
Qed.

Lemma fold_place_metadata scale names st i (k : string) :
  NoDup names -> names !! i = Some k -> k <> "__proto__" ->
  Sprites.metadata (fold_left (Sprites.place scale) names st) !! k
  = Some (entry_at scale
            (Sprites.xOffset st + Sprites.spriteWidth * scale * Z.of_nat i)%Z).
Proof.
  revert st i. induction names as [|n rest IH]; intros st i Hnd Hi Hp; [discriminate|].
  apply NoDup_cons in Hnd as [Hn Hnd]. destruct i as [|i]; simpl in Hi.
  - injection Hi as ->. cbn [fold_left].
    rewrite (fold_place_untouched _ _ _ _ (or_introl Hn)).
    cbn [Sprites.place Sprites.metadata].
    rewrite assign_lookup. rewrite decide_True by (now split).
    change (Z.of_nat 0) with 0%Z.
    now rewrite Z.mul_0_r, Z.add_0_r.
  - cbn [fold_left]. rewrite (IH _ i Hnd Hi Hp). cbn [Sprites.place Sprites.xOffset].
    replace (Sprites.xOffset st + Sprites.spriteWidth * scale
             + Sprites.spriteWidth * scale * Z.of_nat i)%Z
      with (Sprites.xOffset st + Sprites.spriteWidth * scale * Z.of_nat (S i))%Z;
      [reflexivity|].
    rewrite Nat2Z.inj_succ. unfold Z.succ. ring.
Qed.

(** X23: for sprite names without repetition and a non-zero scale, the
    metadata of the i-th sprite (counting from 0) is 32 by 32 at
    [x = 32 i], [y = 0], with the scale as pixel ratio, the same logical
    position at every scale, for every sprite but one named [__proto__];
    the metadata has no key [__proto__] and no key that is not a sprite
    name. *)
Theorem metadata_positions scale names :
  scale <> 0%Z -> NoDup names ->
  (forall i name,
     names !! i = Some name -> name <> "__proto__" ->
     Sprites.metadata (Sprites.place_all scale names) !! name =
     Some {| Sprites.width := 32; Sprites.height := 32;
             Sprites.x := 32 * Z.of_nat i; Sprites.y := 0;
             Sprites.pixelRatio := scale |}) /\
  (forall k : string, k ∉ names \/ k = "__proto__" ->
     Sprites.metadata (Sprites.place_all scale names) !! k = None).
Proof.
  intros Hscale Hnd. split.
  - intros i name Hi Hp. unfold Sprites.place_all.
    rewrite (fold_place_metadata _ _ _ i name Hnd Hi Hp). simpl. do 2 f_equal.
    unfold Sprites.spriteWidth.
    replace (0 + 32 * scale * Z.of_nat i)%Z with (32 * Z.of_nat i * scale)%Z by lia.
    now apply Z.div_mul.
  - intros k Hk. unfold Sprites.place_all. now rewrite fold_place_untouched.
Qed.

(** X24: on a sheet, the i-th sprite is drawn at offset [32 * scale * i];
    for a positive scale every sprite lies within the canvas, whose width
    is [32 * scale] times the number of sprites, and two different sprites
    never overlap. *)
Theorem sprites_fit_and_do_not_overlap names c :
  (0 < Sprites.scale c)%Z ->
  let sheet := Sprites.build_sheet names c in
  let cell := (32 * Sprites.scale c)%Z in
  length (Sprites.draws (Sprites.placed sheet)) = length names /\
  (forall i name,
     names !! i = Some name ->
     Sprites.draws (Sprites.placed sheet) !! i = Some (name, cell * Z.of_nat i)%Z /\
     (0 <= cell * Z.of_nat i /\ cell * Z.of_nat i + cell <= Sprites.totalWidth sheet)%Z) /\
  (forall i j a b,
     Sprites.draws (Sprites.placed sheet) !! i = Some a ->
     Sprites.draws (Sprites.placed sheet) !! j = Some b ->
     (i < j)%nat -> (a.2 + cell <= b.2)%Z).
Proof.
  intros Hscale sheet cell. subst sheet cell.
  unfold Sprites.build_sheet, Sprites.place_all; simpl.
  rewrite fold_place_draws; simpl.
  assert (Hlook : forall i,
            imap (draw_at (Sprites.scale c)
                    {| Sprites.draws := []; Sprites.metadata := ∅; Sprites.xOffset := 0 |})
              names !! i
            = (fun name => (name, 32 * Sprites.scale c * Z.of_nat i)%Z) <$> names !! i).
  { intros i. rewrite list_lookup_imap. destruct (names !! i); reflexivity. }
  split; [apply length_imap|]. split.
  - intros i name Hi. rewrite Hlook, Hi. split; [reflexivity|].
    apply lookup_lt_Some in Hi. unfold Sprites.spriteWidth. nia.
  - intros i j a b. rewrite !Hlook.
    destruct (names !! i) as [ni|]; [|discriminate].
    destruct (names !! j) as [nj|]; [|discriminate].
    intros [= <-] [= <-] Hij. simpl. nia.
Qed.

(** X25: without SVG files no sheet is built; otherwise two are, named
    [sprite.png] / [sprite.json] and [sprite@2x.png] / [sprite@2x.json],
    the second canvas twice as wide and as high as the first, and both
    metadata place every sprite (but one named [__proto__], which is a key
    of neither) at the same position and size, with pixel ratios 1 and
    2. *)
Theorem two_sheets_same_layout names :
  Sprites.generateSprites [] = [] /\
  (names <> [] -> NoDup names ->
   exists s1 s2,
     Sprites.generateSprites names = [s1; s2] /\
     (Sprites.png_name s1, Sprites.json_name s1) = ("sprite.png", "sprite.json") /\
     (Sprites.png_name s2, Sprites.json_name s2) = ("sprite@2x.png", "sprite@2x.json") /\
     Sprites.totalWidth s2 = (2 * Sprites.totalWidth s1)%Z /\
     Sprites.totalHeight s2 = (2 * Sprites.totalHeight s1)%Z /\
     Sprites.metadata (Sprites.placed s1) !! "__proto__" = None /\
     Sprites.metadata (Sprites.placed s2) !! "__proto__" = None /\
     (forall name, name ∈ names -> name <> "__proto__" ->
        exists e1 e2,
          Sprites.metadata (Sprites.placed s1) !! name = Some e1 /\
          Sprites.metadata (Sprites.placed s2) !! name = Some e2 /\
          Sprites.x e1 = Sprites.x e2 /\ Sprites.y e1 = Sprites.y e2 /\
          Sprites.width e1 = Sprites.width e2 /\ Sprites.height e1 = Sprites.height e2 /\
          Sprites.pixelRatio e1 = 1%Z /\ Sprites.pixelRatio e2 = 2%Z)).
Proof.
  split; [reflexivity|].
  intros Hne Hnd.
  assert (Hgen : Sprites.generateSprites names
                 = map (Sprites.build_sheet names) Sprites.CONFIGS)
    by (destruct names; [now elim Hne | reflexivity]).
  exists (Sprites.build_sheet names {| Sprites.scale := 1; Sprites.suffix := EmptyString |}),
         (Sprites.build_sheet names {| Sprites.scale := 2; Sprites.suffix := "@2x" |}).
  split; [exact Hgen|].
  split; [reflexivity|]. split; [reflexivity|].
  split; [unfold Sprites.build_sheet; simpl; lia|].
  split; [reflexivity|].
  unfold Sprites.build_sheet, Sprites.place_all.
  cbn [Sprites.placed Sprites.scale].
  split; [now rewrite fold_place_untouched by (now right)|].
  split; [now rewrite fold_place_untouched by (now right)|].
  intros name Hin Hp. apply list_elem_of_lookup in Hin as [i Hi].
  rewrite (fold_place_metadata 1 _ _ i name Hnd Hi Hp).
  rewrite (fold_place_metadata 2 _ _ i name Hnd Hi Hp).
  eexists _, _. split; [reflexivity|]. split; [reflexivity|].
  cbn [Sprites.x Sprites.y Sprites.width Sprites.height Sprites.pixelRatio
       Sprites.xOffset].
  repeat split.
  unfold Sprites.spriteWidth. rewrite Z.div_1_r.
  replace (0 + 32 * 2 * Z.of_nat i)%Z with (32 * Z.of_nat i * 2)%Z by lia.
  rewrite Z.div_mul by lia. lia.
Qed.

(** A sprite named [__proto__] is drawn and takes its cell, but gets no
    metadata entry; the sprites after it keep their positions. *)
Example proto_sprite_has_no_entry :
  let placed := Sprites.place_all 1 ["clinic"; "__proto__"; "school"] in
  Sprites.draws placed = [("clinic", 0%Z); ("__proto__", 32%Z); ("school", 64%Z)] /\
  Sprites.metadata placed !! "__proto__" = None /\
  Sprites.x <$> Sprites.metadata placed !! "school" = Some 64%Z.
Proof. repeat split. Qed.

End SpritesFacts.

Lemma metadata_positions_witness :
  Sprites.metadata (Sprites.place_all 2 MoreInputs.three_icons) !! "hospital" =
  Some {| Sprites.width := 32; Sprites.height := 32; Sprites.x := 32 * Z.of_nat 1;
          Sprites.y := 0; Sprites.pixelRatio := 2 |}.
Proof.
  refine (proj1 (metadata_positions 2 MoreInputs.three_icons _ _) 1%nat "hospital" _ _).
  - lia.
  - apply (bool_decide_unpack (NoDup MoreInputs.three_icons)). vm_compute. exact I.
  - reflexivity.
  - discriminate.
Defined.

Lemma sprites_fit_and_do_not_overlap_witness :
  length (Sprites.draws (Sprites.placed
            (Sprites.build_sheet MoreInputs.three_icons
               {| Sprites.scale := 2; Sprites.suffix := "@2x" |})))
  = length MoreInputs.three_icons.
Proof.
  refine (proj1 (sprites_fit_and_do_not_overlap MoreInputs.three_icons
                   {| Sprites.scale := 2; Sprites.suffix := "@2x" |} _)).
  simpl. lia.
Defined.

Lemma two_sheets_same_layout_witness :
  exists s1 s2,
    Sprites.generateSprites MoreInputs.three_icons = [s1; s2] /\
    (Sprites.png_name s1, Sprites.json_name s1) = ("sprite.png", "sprite.json") /\
    (Sprites.png_name s2, Sprites.json_name s2) = ("sprite@2x.png", "sprite@2x.json").
Proof.
  destruct (proj2 (two_sheets_same_layout MoreInputs.three_icons))
    as (s1 & s2 & Hgen & Hn1 & Hn2 & _).
  - discriminate.
  - apply (bool_decide_unpack (NoDup MoreInputs.three_icons)). vm_compute. exact I.
  - exists s1, s2. auto.
Defined.
